(** * YOLO detection application: statistics, video pipeline, model cache

    A shallow embedding of the sequential logic of the application
    (src/config.py, src/services/detection_service.py,
    src/services/model_service.py, src/components/video_processor.py)
    and the properties its specification states about it.

    Conventions.
    - Python [int] is [Z]; a [Dict[str, int]] is a [gmap string Z]
      (the iteration order of a dict is display order only and is not
      modelled); [d.get(k, v)] is [dict_get d k v].
    - A Python float that the code only passes along or divides once
      (confidence, progress) is an exact rational [Q]; [a / b] on ints
      is [inject_Z a / inject_Z b] and raises [ZeroDivisionError] at
      [b = 0]. The progress widget checks the value it is given and
      raises for one outside its range.
    - Code that raises is a computation [M A] over the [World]: it
      returns [OK a] or [Raise e] together with the world it leaves
      behind, so what was written before an exception stays visible.
    - The inference engine, the video codecs, the temporary-file
      facility and the external transcoder are collaborators of the
      program, not part of it: they are fields of [YOLO] and [Env]. *)

From Stdlib Require Import QArith Qabs Qminmax Lqa.
From stdpp Require Import gmap strings list fin_maps pretty.

Open Scope string_scope.
Open Scope list_scope.
Open Scope Z_scope.

(** ** Python dictionaries with integer counts *)

(** [d.get(k, dflt)] *)
Definition dict_get (d : gmap string Z) (k : string) (dflt : Z) : Z :=
  default dflt (d !! k).

(** ** src/config.py *)

Module Config.

Record DetectionClass : Type := mkDetectionClass {
  id : Z;
  name : string;
  emoji : string
}.

Definition DEFAULT_CONFIDENCE : Q := (1 # 2)%Q.

Definition SUPPORTED_IMAGE_FORMATS : list string :=
  ["jpg"; "jpeg"; "png"; "bmp"; "webp"].

Definition SUPPORTED_VIDEO_FORMATS : list string :=
  ["mp4"; "avi"; "mov"; "mkv"; "webm"].

(** Custom trained model classes: 0 = human, 1 = car. *)
Definition DETECTION_CLASSES : gmap Z DetectionClass :=
  <[1 := mkDetectionClass 1 "Car" "🚗"]>
    (<[0 := mkDetectionClass 0 "Human" "👤"]> ∅).

(** [f"Class {class_id}"]: the decimal numeral of the identifier, with a
    leading minus sign when it is negative. *)
Definition placeholder_name (class_id : Z) : string :=
  "Class " +:+ pretty class_id.

(** [Config.get_class_name]: a [DetectionClass] instance is always truthy,
    so the conditional tests only whether the lookup found one. *)
Definition get_class_name (class_id : Z) : string :=
  match DETECTION_CLASSES !! class_id with
  | Some detection_class => name detection_class
  | None => placeholder_name class_id
  end.

End Config.

(** ** src/services/detection_service.py: inference and statistics *)

(** A detection box as the code reads it: [cls] is [int(box.cls[0])], the
    class identifier; [conf] is the score. *)
Record Box : Type := mkBox {
  cls : Z;
  conf : Q
}.

(** [results[0]] of one [predict] call on one frame: the engine's own
    rendering of the frame and the boxes ([None] when the engine reports
    no box container). *)
Record Results (Frame : Type) : Type := mkResults {
  plot : Frame;
  boxes : option (list Box)
}.
Arguments mkResults {Frame} _ _.
Arguments plot {Frame} _.
Arguments boxes {Frame} _.

(** The inference engine: [predict source conf classes], where [classes]
    is [None] for no class restriction. *)
Record YOLO (Frame : Type) : Type := mkYOLO {
  predict : Frame → Q → option (list Z) → Results Frame
}.
Arguments mkYOLO {Frame} _.
Arguments predict {Frame} _ _ _ _.

Record BaseDetector (Frame : Type) : Type := mkDetector {
  _model : YOLO Frame;
  _confidence : Q;
  _classes : option (list Z)
}.
Arguments mkDetector {Frame} _ _ _.
Arguments _model {Frame} _.
Arguments _confidence {Frame} _.
Arguments _classes {Frame} _.

(** One turn of the loop of [_extract_statistics]. *)
Definition count_box (stats : gmap string Z) (box : Box) : gmap string Z :=
  let class_id := cls box in
  let class_name := Config.get_class_name class_id in
  <[class_name := dict_get stats class_name 0 + 1]> stats.

(** [BaseDetector._extract_statistics] *)
Definition _extract_statistics (detections : option (list Box)) : gmap string Z :=
  match detections with
  | None => ∅
  | Some [] => ∅
  | Some detections => foldl count_box ∅ detections
  end.

(** [self._classes if self._classes else None]: [None] and the empty list
    are both falsy. *)
Definition classes_argument (classes : option (list Z)) : option (list Z) :=
  match classes with
  | Some (c :: cs) => Some (c :: cs)
  | _ => None
  end.

(** [BaseDetector._run_inference] *)
Definition _run_inference {Frame : Type} (self : BaseDetector Frame) (frame : Frame)
    : Frame * gmap string Z :=
  let results :=
    predict (_model self) frame (_confidence self) (classes_argument (_classes self)) in
  let annotated := plot results in
  let statistics := _extract_statistics (boxes results) in
  (annotated, statistics).

(** [ImageDetector.detect] *)
Record DetectionResult (Frame : Type) : Type := mkDetectionResult {
  annotated_frame : Frame;
  statistics : gmap string Z
}.
Arguments mkDetectionResult {Frame} _ _.
Arguments annotated_frame {Frame} _.
Arguments statistics {Frame} _.

Definition ImageDetector_detect {Frame : Type} (self : BaseDetector Frame) (image : Frame)
    : DetectionResult Frame :=
  let '(annotated, statistics) := _run_inference self image in
  mkDetectionResult annotated statistics.

(** [DetectorFactory]: the image and the video detector are built from
    the same three arguments. *)
Definition create_image_detector {Frame : Type} (model : YOLO Frame) (confidence : Q)
    (classes : option (list Z)) : BaseDetector Frame :=
  mkDetector model confidence classes.

Definition create_video_detector {Frame : Type} (model : YOLO Frame) (confidence : Q)
    (classes : option (list Z)) : BaseDetector Frame :=
  mkDetector model confidence classes.


(** ** Exceptions, results and the world *)

Inductive exn : Type :=
  | ZeroDivisionError
  | FileNotFoundError
  | CalledProcessError
  | PermissionError
  | SameFileError
  | TypeError
  | StreamlitValueOutOfRangeError.

(** The outcome of a computation: a value, an uncaught exception, or a
    loop that ran out of the fuel it was given. *)
Inductive result (A : Type) : Type :=
  | OK (a : A)
  | Raise (e : exn)
  | OutOfFuel.
Arguments OK {A} _.
Arguments Raise {A} _.
Arguments OutOfFuel {A}.

(** Calls on the user interface, in the order they are made. *)
Inductive ui_event : Type :=
  | ProgressCreate (value : Q)      (* st.progress(value) *)
  | StatusCreate                    (* st.empty() *)
  | ProgressSet (value : Q)         (* progress_bar.progress(value) *)
  | StatusText (text : string)      (* status_text.text(text) *)
  | ProgressEmpty                   (* progress_bar.empty() *)
  | StatusEmpty.                    (* status_text.empty() *)

(** What a video container holds: its metadata (the frame count is what
    the container declares, not the number of frames that decode) and the
    frames that can be read, in order. *)
Record Video (Frame : Type) : Type := mkVideo {
  video_fps : Z;
  video_width : Z;
  video_height : Z;
  video_frame_count : Z;
  video_frames : list Frame
}.
Arguments mkVideo {Frame} _ _ _ _ _.
Arguments video_fps {Frame} _.
Arguments video_width {Frame} _.
Arguments video_height {Frame} _.
Arguments video_frame_count {Frame} _.
Arguments video_frames {Frame} _.

(** [cv2.VideoCapture]: an unopened capture reports 0 for every property
    and reads nothing. *)
Record VideoCapture (Frame : Type) : Type := mkCapture {
  cap_opened : bool;
  cap_video : Video Frame
}.
Arguments mkCapture {Frame} _ _.
Arguments cap_opened {Frame} _.
Arguments cap_video {Frame} _.

(** [cv2.VideoWriter]: the frames written so far, oldest first; the
    container reaches the file when the writer is released. *)
Record VideoWriter (Frame : Type) : Type := mkWriter {
  out_path : string;
  out_fps : Z;
  out_size : Z * Z;
  out_frames : list Frame
}.
Arguments mkWriter {Frame} _ _ _ _.
Arguments out_path {Frame} _.
Arguments out_fps {Frame} _.
Arguments out_size {Frame} _.
Arguments out_frames {Frame} _.

(** The collaborators outside the program. *)
Record Env (Frame : Type) : Type := mkEnv {
  (* the name [tempfile.NamedTemporaryFile(delete=False, suffix=s)] picks
     when the paths in the set exist *)
  tmpname : gset string → string → string;
  (* what the video library decodes from a file; [None]: it cannot open it *)
  demux : list Byte.byte → option (Video Frame);
  (* the container the writer produces for a frame rate, a size, frames *)
  mux : Z → Z * Z → list Frame → list Byte.byte;
  (* the transcoder: [None] when the executable is not found; otherwise,
     from the input file, whether it exits with status 0 and what it
     leaves at the output path *)
  ffmpeg : option (list Byte.byte → bool * list Byte.byte)
}.
Arguments mkEnv {Frame} _ _ _ _.
Arguments tmpname {Frame} _ _ _.
Arguments demux {Frame} _ _.
Arguments mux {Frame} _ _ _ _.
Arguments ffmpeg {Frame} _.

(** The temporary-file facility creates a file that did not exist. *)
Definition tmpname_fresh {Frame : Type} (E : Env Frame) : Prop :=
  ∀ (existing : gset string) (suffix : string), tmpname E existing suffix ∉ existing.

Record World (Frame : Type) : Type := mkWorld {
  files : gmap string (list Byte.byte);      (* the file system *)
  unlink_denied : gset string;          (* paths whose deletion fails *)
  cap : VideoCapture Frame;             (* the capture [cap] of [detect] *)
  out : VideoWriter Frame;              (* the writer [out] of [detect] *)
  ui : list ui_event                    (* the calls on the UI, oldest first *)
}.
Arguments mkWorld {Frame} _ _ _ _ _.
Arguments files {Frame} _.
Arguments unlink_denied {Frame} _.
Arguments cap {Frame} _.
Arguments out {Frame} _.
Arguments ui {Frame} _.

Definition no_video {Frame : Type} : Video Frame := mkVideo 0 0 0 0 [].

(** A world with the given files, no open handle and no UI call yet. *)
Definition initial_world {Frame : Type} (fs : gmap string (list Byte.byte))
    (denied : gset string) : World Frame :=
  mkWorld fs denied (mkCapture false no_video) (mkWriter "" 0 (0, 0) []) [].

(** Computations over a state [St] that may raise. *)
Section Monad.
Context {St : Type}.

Definition M (A : Type) : Type := St → result A * St.

Definition ret {A : Type} (a : A) : M A := λ s, (OK a, s).

Definition raise {A : Type} (e : exn) : M A := λ s, (Raise e, s).

Definition bind {A B : Type} (c : M A) (k : A → M B) : M B :=
  λ s,
    match c s with
    | (OK a, s') => k a s'
    | (Raise e, s') => (Raise e, s')
    | (OutOfFuel, s') => (OutOfFuel, s')
    end.

(** [try: c except (e1, e2, ...): handler], the exceptions caught given
    by [catches]. *)
Definition try_except {A : Type} (c : M A) (catches : exn → bool) (handler : M A) : M A :=
  λ s,
    match c s with
    | (Raise e, s') => if catches e then handler s' else (Raise e, s')
    | r => r
    end.

Definition get : M St := λ s, (OK s, s).

Definition put (s : St) : M unit := λ _, (OK tt, s).

End Monad.
Arguments M : clear implicits.

Declare Scope py_scope.
Delimit Scope py_scope with py.
Notation "x <- c ;; k" := (bind c (λ x, k))
  (at level 100, c at next level, right associativity) : py_scope.
Notation "c ;; k" := (bind c (λ _, k))
  (at level 100, right associativity) : py_scope.
Open Scope py_scope.

(** ** The operating system, the video library and the UI *)

(** The progress widget of the UI library checks a float it is given
    with [_check_float_between(value, low=0.0, high=1.0)]:
    [low <= value <= high], or the value is close to a bound, which lets
    the rounding error of a float computation pass. *)
Definition tolerance : Q := (1 # 1000000000)%Q.

(** [math.isclose(a, b, rel_tol=1e-9, abs_tol=1e-9)]:
    [abs(a - b) <= max(rel_tol * max(abs(a), abs(b)), abs_tol)] *)
Definition isclose (a b : Q) : bool :=
  Qle_bool (Qabs (a - b)) (Qmax (tolerance * Qmax (Qabs a) (Qabs b)) tolerance).

Definition _check_float_between (value low high : Q) : bool :=
  (Qle_bool low value && Qle_bool value high) || isclose value low || isclose value high.

Section Collaborators.
Context {Frame : Type} (E : Env Frame).

Definition set_files (fs : gmap string (list Byte.byte)) : M (World Frame) unit :=
  w <- get ;; put (mkWorld fs (unlink_denied w) (cap w) (out w) (ui w)).

Definition set_cap (c : VideoCapture Frame) : M (World Frame) unit :=
  w <- get ;; put (mkWorld (files w) (unlink_denied w) c (out w) (ui w)).

Definition set_out (o : VideoWriter Frame) : M (World Frame) unit :=
  w <- get ;; put (mkWorld (files w) (unlink_denied w) (cap w) o (ui w)).

Definition ui_call (ev : ui_event) : M (World Frame) unit :=
  w <- get ;; put (mkWorld (files w) (unlink_denied w) (cap w) (out w) (ui w ++ [ev])).

(** [progress_bar.progress(value)] for a float: the widget shows a value
    that passes its check for the range 0.0 to 1.0 and raises for any
    other, before anything is shown. *)
Definition progress_bar_progress (value : Q) : M (World Frame) unit :=
  if _check_float_between value 0 1 then ui_call (ProgressSet value)
  else raise StreamlitValueOutOfRangeError.

(** [tempfile.NamedTemporaryFile(delete=False, suffix=suffix).name]: the
    file is created, empty, and stays. *)
Definition NamedTemporaryFile (suffix : string) : M (World Frame) string :=
  w <- get ;;
  let name := tmpname E (dom (files w)) suffix in
  set_files (<[name := []]> (files w)) ;;
  ret name.

(** [os.path.exists(path)] *)
Definition os_path_exists (path : string) : M (World Frame) bool :=
  w <- get ;;
  ret (match files w !! path with Some _ => true | None => false end).

(** [os.unlink(path)] *)
Definition os_unlink (path : string) : M (World Frame) unit :=
  w <- get ;;
  match files w !! path with
  | None => raise FileNotFoundError
  | Some _ =>
      if bool_decide (path ∈ unlink_denied w) then raise PermissionError
      else set_files (delete path (files w))
  end.

(** [shutil.copy(src, dst)] for a file [dst] *)
Definition shutil_copy (src dst : string) : M (World Frame) unit :=
  w <- get ;;
  match files w !! src with
  | None => raise FileNotFoundError
  | Some data =>
      if bool_decide (src = dst) then raise SameFileError
      else set_files (<[dst := data]> (files w))
  end.

(** [subprocess.run(['ffmpeg', '-y', '-i', input_path, ..., output_path],
    check=True, capture_output=True)] *)
Definition subprocess_run_ffmpeg (input_path output_path : string) : M (World Frame) unit :=
  match ffmpeg E with
  | None => raise FileNotFoundError
  | Some transcode =>
      w <- get ;;
      match files w !! input_path with
      | None => raise CalledProcessError
      | Some data =>
          let '(exit_ok, written) := transcode data in
          set_files (<[output_path := written]> (files w)) ;;
          if exit_ok : bool then ret tt else raise CalledProcessError
      end
  end.

(** [cap = cv2.VideoCapture(video_path)] *)
Definition cv2_VideoCapture (video_path : string) : M (World Frame) unit :=
  w <- get ;;
  match files w !! video_path ≫= demux E with
  | Some video => set_cap (mkCapture true video)
  | None => set_cap (mkCapture false no_video)
  end.

(** [cap.isOpened()] *)
Definition cap_isOpened : M (World Frame) bool :=
  w <- get ;; ret (cap_opened (cap w)).

(** [ret, frame = cap.read()]: [None] stands for [ret == False]. *)
Definition cap_read : M (World Frame) (option Frame) :=
  w <- get ;;
  let video := cap_video (cap w) in
  if cap_opened (cap w) then
    match video_frames video with
    | [] => ret None
    | frame :: rest =>
        set_cap (mkCapture true
                   (mkVideo (video_fps video) (video_width video) (video_height video)
                      (video_frame_count video) rest)) ;;
        ret (Some frame)
    end
  else ret None.

(** [cap.release()] *)
Definition cap_release : M (World Frame) unit :=
  set_cap (mkCapture false no_video).

(** [out = cv2.VideoWriter(path, fourcc, fps, size)] *)
Definition cv2_VideoWriter (path : string) (fps : Z) (size : Z * Z) : M (World Frame) unit :=
  set_out (mkWriter path fps size []).

(** [out.write(frame)] *)
Definition out_write (frame : Frame) : M (World Frame) unit :=
  w <- get ;;
  let o := out w in
  set_out (mkWriter (out_path o) (out_fps o) (out_size o) (out_frames o ++ [frame])).

(** [out.release()] *)
Definition out_release : M (World Frame) unit :=
  w <- get ;;
  let o := out w in
  set_files (<[out_path o := mux E (out_fps o) (out_size o) (out_frames o)]> (files w)).

End Collaborators.

(** ** src/services/detection_service.py: the video pipeline *)

Record VideoDetectionResult : Type := mkVideoDetectionResult {
  output_path : string;
  video_statistics : gmap string Z
}.

(** The dictionary [_get_video_properties] returns. *)
Record VideoProperties : Type := mkVideoProperties {
  fps : Z;
  width : Z;
  height : Z;
  total_frames : Z
}.

(** [f"Processing: {current}/{total} frames"] *)
Definition status_line (current total : Z) : string :=
  "Processing: " +:+ pretty current +:+ "/" +:+ pretty total +:+ " frames".

(** [current / total] on Python ints *)
Definition true_div {St : Type} (current total : Z) : M St Q :=
  if total =? 0 then raise ZeroDivisionError
  else ret (inject_Z current / inject_Z total)%Q.

(** [VideoDetector._merge_statistics]: [total] is updated in place in the
    source; here the updated dictionary is returned. *)
Definition _merge_statistics (total frame_stats : gmap string Z) : gmap string Z :=
  map_fold
    (λ class_name count total, <[class_name := dict_get total class_name 0 + count]> total)
    total frame_stats.

Section VideoDetector.
Context {Frame : Type} (E : Env Frame).

(** [VideoDetector._get_video_properties] *)
Definition _get_video_properties : M (World Frame) VideoProperties :=
  w <- get ;;
  let video := cap_video (cap w) in
  ret (mkVideoProperties (video_fps video) (video_width video) (video_height video)
         (video_frame_count video)).

(** [VideoDetector._convert_to_h264] *)
Definition _convert_to_h264 (input_path : string) : M (World Frame) string :=
  output_path <- NamedTemporaryFile E ".mp4" ;;
  try_except
    (subprocess_run_ffmpeg E input_path output_path)
    (λ e, match e with CalledProcessError | FileNotFoundError => true | _ => false end)
    (shutil_copy input_path output_path) ;;
  ret output_path.

(** [VideoDetector._update_progress] *)
Definition _update_progress (current total : Z) : M (World Frame) unit :=
  progress <- true_div current total ;;
  progress_bar_progress progress ;;
  ui_call (StatusText (status_line current total)).

(** The [while cap.isOpened():] loop of [_process_frames]; every turn that
    does not leave the loop takes one frame from the capture. *)
Fixpoint drain_loop (fuel : nat) (self : BaseDetector Frame) (total_frames : Z)
    (total_stats : gmap string Z) (frame_count : Z) : M (World Frame) (gmap string Z) :=
  match fuel with
  | O => λ w, (OutOfFuel, w)
  | S fuel =>
      opened <- cap_isOpened ;;
      if opened : bool then
        r <- cap_read ;;
        match r with
        | None => ret total_stats
        | Some frame =>
            let '(annotated, frame_stats) := _run_inference self frame in
            out_write annotated ;;
            let total_stats := _merge_statistics total_stats frame_stats in
            let frame_count := frame_count + 1 in
            _update_progress frame_count total_frames ;;
            drain_loop fuel self total_frames total_stats frame_count
        end
      else ret total_stats
  end.

(** [VideoDetector._process_frames]; the loop gets one turn per frame the
    capture still holds and one more to find it exhausted. *)
Definition _process_frames (self : BaseDetector Frame) (total_frames : Z)
    : M (World Frame) (gmap string Z) :=
  ui_call (ProgressCreate 0) ;;
  ui_call StatusCreate ;;
  w <- get ;;
  total_stats <-
    drain_loop (S (length (video_frames (cap_video (cap w))))) self total_frames ∅ 0 ;;
  ui_call ProgressEmpty ;;
  ui_call StatusEmpty ;;
  ret total_stats.

(** [VideoDetector.detect] *)
Definition detect (self : BaseDetector Frame) (video_path : string)
    : M (World Frame) VideoDetectionResult :=
  cv2_VideoCapture E video_path ;;
  video_props <- _get_video_properties ;;
  temp_output <- NamedTemporaryFile E ".avi" ;;
  cv2_VideoWriter temp_output (fps video_props) (width video_props, height video_props) ;;
  total_stats <- _process_frames self (total_frames video_props) ;;
  cap_release ;;
  out_release E ;;
  final_output <- _convert_to_h264 temp_output ;;
  exists_ <- os_path_exists temp_output ;;
  (if exists_ : bool then os_unlink temp_output else ret tt) ;;
  ret (mkVideoDetectionResult final_output total_stats).

(** ** src/components/video_processor.py *)

(** One turn of the loop of [_cleanup_temp_files]:
    [try: if os.path.exists(p): os.unlink(p) except Exception: pass] *)
Definition cleanup_one (file_path : string) : M (World Frame) unit :=
  try_except
    (exists_ <- os_path_exists file_path ;;
     if exists_ : bool then os_unlink file_path else ret tt)
    (λ _, true)
    (ret tt).

(** [VideoProcessorComponent._cleanup_temp_files]; returns the list
    [self._temp_files] is left with. *)
Fixpoint _cleanup_temp_files (_temp_files : list string) : M (World Frame) (list string) :=
  match _temp_files with
  | [] => ret []
  | file_path :: rest => cleanup_one file_path ;; _cleanup_temp_files rest
  end.

(** [VideoProcessorComponent._save_uploaded_video]; returns the path and
    the new [self._temp_files]. *)
Definition _save_uploaded_video (_temp_files : list string) (uploaded : list Byte.byte)
    : M (World Frame) (string * list string) :=
  tmp <- NamedTemporaryFile E ".mp4" ;;
  w <- get ;;
  set_files (<[tmp := uploaded]> (files w)) ;;
  ret (tmp, _temp_files ++ [tmp]).

(** [VideoProcessorComponent._render_detection_ui], the widgets that only
    display left out; [clicked] is what [st.button] returns. *)
Definition _render_detection_ui (self : BaseDetector Frame) (_temp_files : list string)
    (clicked : bool) (input_path : string)
    : M (World Frame) (list string * option VideoDetectionResult) :=
  if clicked then
    result <- detect self input_path ;;
    ret (_temp_files ++ [output_path result], Some result)
  else ret (_temp_files, None).

(** [VideoProcessorComponent._process_and_display]: the original video
    is shown, then the detection column is rendered. *)
Definition _process_and_display (self : BaseDetector Frame) (_temp_files : list string)
    (clicked : bool) (input_path : string)
    : M (World Frame) (list string * option VideoDetectionResult) :=
  _render_detection_ui self _temp_files clicked input_path.

(** [VideoProcessorComponent.render] for an upload ([None]: no file was
    uploaded) and the state of the start button; [self._temp_files] is
    empty when the component is built. *)
Definition render (self : BaseDetector Frame) (uploaded_file : option (list Byte.byte))
    (clicked : bool) : M (World Frame) (option VideoDetectionResult) :=
  match uploaded_file with
  | None => ret None
  | Some uploaded =>
      saved <- _save_uploaded_video [] uploaded ;;
      let '(input_path, _temp_files) := saved in
      rendered <- _process_and_display self _temp_files clicked input_path ;;
      let '(_temp_files, shown) := rendered in
      _cleanup_temp_files _temp_files ;;
      ret shown
  end.

End VideoDetector.

(** ** src/services/model_service.py *)

Module ModelService.

(** A loaded model object: [handle] is the identity of the object that
    [YOLO(model_path)] created, [device] where [model.to] last bound it. *)
Record Model : Type := mkModel {
  handle : nat;
  source_path : string;
  device : string
}.

(** The costly steps of loading, as they happen. *)
Inductive event : Type :=
  | Deserialize (model_path : string)               (* YOLO(model_path) *)
  | BindDevice (handle : nat) (device : string).    (* model.to(device) *)

Record State : Type := mkState {
  cuda_is_available : bool;      (* torch.cuda.is_available() *)
  model_files : gset string;     (* the paths that hold a loadable model *)
  broken_files : gmap string exn; (* the other files: what [YOLO(path)] raises on each *)
  cache : gmap string Model;     (* the store [st.cache_resource] keeps for [load_model] *)
  events : list event;           (* oldest first *)
  next_handle : nat              (* the identity the next new object gets *)
}.

(** [ModelService.get_device] *)
Definition get_device : M State string :=
  s <- get ;;
  ret (if cuda_is_available s then "cuda" else "cpu").

(** [YOLO(model_path)]: a new object; for a file that is not a loadable
    model the exception its content makes the loader raise, and
    [FileNotFoundError] when there is no such file. *)
Definition YOLO (model_path : string) : M State Model :=
  s <- get ;;
  if bool_decide (model_path ∈ model_files s) then
    put (mkState (cuda_is_available s) (model_files s) (broken_files s) (cache s)
           (events s ++ [Deserialize model_path]) (S (next_handle s))) ;;
    ret (mkModel (next_handle s) model_path "cpu")
  else
    match broken_files s !! model_path with
    | Some e => raise e
    | None => raise FileNotFoundError
    end.

(** [model.to(device)]: the same object, bound to [device]. *)
Definition to (model : Model) (device : string) : M State Model :=
  s <- get ;;
  put (mkState (cuda_is_available s) (model_files s) (broken_files s) (cache s)
         (events s ++ [BindDevice (handle model) device]) (next_handle s)) ;;
  ret (mkModel (handle model) (source_path model) device).

(** The body of [ModelService.load_model], under the decorator. *)
Definition load_model_body (model_path : string) : M State Model :=
  device <- get_device ;;
  model <- YOLO model_path ;;
  model <- to model device ;;
  ret model.

(** [@st.cache_resource]: the decorated function is called for an
    argument the store does not hold and its return value stored; a stored
    object is returned as it is. An exception stores nothing. *)
Definition cache_resource (f : string → M State Model) (key : string) : M State Model :=
  s <- get ;;
  match cache s !! key with
  | Some model => ret model
  | None =>
      model <- f key ;;
      s' <- get ;;
      put (mkState (cuda_is_available s') (model_files s') (broken_files s')
             (<[key := model]> (cache s')) (events s') (next_handle s')) ;;
      ret model
  end.

(** [ModelService.load_model] *)
Definition load_model : string → M State Model := cache_resource load_model_body.

(** The state after loading each path of a list in turn, whatever each
    call returns. *)
Definition load_all (paths : list string) (s : State) : State :=
  foldl (λ s model_path, (load_model model_path s).2) s paths.

End ModelService.

(** ** src/services/model_service.py: uploads *)

Section Uploads.
Context {Frame : Type} (E : Env Frame).

(** [ModelService.save_uploaded_model] *)
Definition save_uploaded_model (uploaded : list Byte.byte) : M (World Frame) string :=
  tmp <- NamedTemporaryFile E ".pt" ;;
  w <- get ;;
  set_files (<[tmp := uploaded]> (files w)) ;;
  ret tmp.

(** The video the capture of [detect] holds for the file at [video_path]:
    what the file decodes to, or no video when there is no such file or it
    does not decode. *)
Definition decoded (w : World Frame) (video_path : string) : Video Frame :=
  default no_video (files w !! video_path ≫= demux E).

End Uploads.

(** ** src/config.py: the registry in the order it is written *)

(** The items of [Config.DETECTION_CLASSES] in the order of the dict
    literal, which is the order in which the dict is iterated. *)
Definition DETECTION_CLASSES_items : list (Z * Config.DetectionClass) :=
  [(0, Config.mkDetectionClass 0 "Human" "👤"); (1, Config.mkDetectionClass 1 "Car" "🚗")].

(** [Config.get_all_class_ids] *)
Definition get_all_class_ids : list Z := DETECTION_CLASSES_items.*1.

(** ** src/components/sidebar.py *)

Module SidebarComponent.

Record SidebarSettings : Type := mkSidebarSettings {
  model_path : option string;
  confidence : Q;
  selected_classes : list Z
}.

(** [f"class_{class_id}"], the key of the checkbox of a class *)
Definition checkbox_key (class_id : Z) : string := "class_" +:+ pretty class_id.

(** [SidebarComponent._render_class_selection]; [checkbox key] is what
    [st.checkbox] returns for the widget of that key. *)
Definition _render_class_selection (checkbox : string → bool) : list Z :=
  foldl
    (λ selected_classes '(class_id, detection_class),
       if checkbox (checkbox_key class_id) : bool then selected_classes ++ [class_id]
       else selected_classes)
    [] DETECTION_CLASSES_items.

End SidebarComponent.

(** ** Statistics panels *)

(** [st.columns(n)]: the [n] column containers, numbered from 0; [None]
    is the exception the call raises unless [n] is at least 1. *)
Definition st_columns (n : nat) : option (list nat) :=
  match n with
  | O => None
  | S _ => Some (seq 0 n)
  end.

(** The loop [for i, (class_name, count) in enumerate(items): with
    cols[column_of i]: st.metric(class_name, count)] from index [i] on:
    the column each metric is put in, or [None] for the [IndexError] of an
    index outside [cols]. *)
Fixpoint place_metrics (column_of : nat → nat) (cols : list nat) (i : nat)
    (items : list (string * Z)) : option (list (nat * (string * Z))) :=
  match items with
  | [] => Some []
  | item :: rest =>
      col ← cols !! column_of i;
      placed ← place_metrics column_of cols (S i) rest;
      Some ((col, item) :: placed)
  end.

Module VideoProcessorComponent.

(** [VideoProcessorComponent._display_statistics]: rows of five *)
Definition _display_statistics (statistics : gmap string Z)
    : option (list (nat * (string * Z))) :=
  if decide (statistics = ∅) then Some []
  else
    cols ← st_columns (size statistics `min` 5);
    place_metrics (λ i, i `mod` 5)%nat cols 0 (map_to_list statistics).

End VideoProcessorComponent.

Module ImageProcessorComponent.

(** [ImageProcessorComponent._display_statistics]: one column per class *)
Definition _display_statistics (statistics : gmap string Z)
    : option (list (nat * (string * Z))) :=
  if decide (statistics = ∅) then Some []
  else
    cols ← st_columns (size statistics);
    place_metrics (λ i, i) cols 0 (map_to_list statistics).

End ImageProcessorComponent.

(** ** src/app.py *)

(** [try: c except Exception as e: handler e] *)
Definition try_except_as {St A : Type} (c : M St A) (handler : exn → M St A) : M St A :=
  λ s,
    match c s with
    | (Raise e, s') => handler e s'
    | r => r
    end.

(** The state of the application: the model service and the world of the
    video pipeline. *)
Record AppState (Frame : Type) : Type := mkAppState {
  models : ModelService.State;
  world : World Frame
}.
Arguments mkAppState {Frame} _ _.
Arguments models {Frame} _.
Arguments world {Frame} _.

(** A computation of the model service, and one of the pipeline, run in
    the application. *)
Definition in_models {Frame A : Type} (c : M ModelService.State A) : M (AppState Frame) A :=
  λ s, let '(r, m) := c (models s) in (r, mkAppState m (world s)).

Definition in_world {Frame A : Type} (c : M (World Frame) A) : M (AppState Frame) A :=
  λ s, let '(r, w) := c (world s) in (r, mkAppState (models s) w).

(** What [st.radio("Select File Type", ...)] returns. *)
Inductive upload_type : Type := ImageFile | VideoFile.

(** What a run of the application ends on: the warning that no model is
    selected, the rendered content (with the video result when there is
    one), or the error message, which carries the exception. *)
Inductive page : Type :=
  | SelectModelWarning
  | Rendered (shown : option VideoDetectionResult)
  | ErrorLoadingModel (e : exn).

Section Application.
Context {Frame : Type} (E : Env Frame).

(** The inference engine of a loaded model object. *)
Variable engine : ModelService.Model → YOLO Frame.

(** [ImageProcessorComponent.render] on the uploaded image. *)
Variable image_render : BaseDetector Frame → M (World Frame) unit.

(** [Application._render_content] *)
Definition _render_content (model : ModelService.Model)
    (settings : SidebarComponent.SidebarSettings) (upload : upload_type)
    (uploaded_file : option (list Byte.byte)) (clicked : bool)
    : M (AppState Frame) (option VideoDetectionResult) :=
  match upload with
  | ImageFile =>
      in_world
        (image_render
           (create_image_detector (engine model) (SidebarComponent.confidence settings)
              (Some (SidebarComponent.selected_classes settings)))) ;;
      ret None
  | VideoFile =>
      in_world
        (render E
           (create_video_detector (engine model) (SidebarComponent.confidence settings)
              (Some (SidebarComponent.selected_classes settings)))
           uploaded_file clicked)
  end.

(** [Application._process_with_model]; [run] calls it with a model path. *)
Definition _process_with_model (settings : SidebarComponent.SidebarSettings)
    (upload : upload_type) (uploaded_file : option (list Byte.byte)) (clicked : bool)
    : M (AppState Frame) page :=
  try_except_as
    (model <-
       in_models
         (ModelService.load_model (default "" (SidebarComponent.model_path settings))) ;;
     shown <- _render_content model settings upload uploaded_file clicked ;;
     ret (Rendered shown))
    (λ e, ret (ErrorLoadingModel e)).

(** [Application.run], for the settings the sidebar returned: a missing
    or empty model path is falsy. *)
Definition run (settings : SidebarComponent.SidebarSettings) (upload : upload_type)
    (uploaded_file : option (list Byte.byte)) (clicked : bool) : M (AppState Frame) page :=
  match SidebarComponent.model_path settings with
  | None | Some "" => ret SelectModelWarning
  | Some _ => _process_with_model settings upload uploaded_file clicked
  end.

End Application.

(** * Vocabulary of the properties *)

(** The number of boxes whose class identifier resolves to [class_name]. *)
Definition boxes_named (class_name : string) (detections : list Box) : Z :=
  Z.of_nat (length (filter (λ box, Config.get_class_name (cls box) = class_name) detections)).

(** The sum of the counts of [class_name] over a list of tables, a table
    without the name counting 0. *)
Definition sum_counts (class_name : string) (tables : list (gmap string Z)) : Z :=
  foldr (λ table acc, dict_get table class_name 0 + acc) 0 tables.

(** The entries of a table. *)
Definition entries (table : gmap string Z) : list (string * Z) := map_to_list table.

(** [f <$$> run]: the value a run returns, seen through [f]. *)
Definition map_result {St A B : Type} (f : A → B) (run : result A * St) : result B :=
  match run.1 with
  | OK a => OK (f a)
  | Raise e => Raise e
  | OutOfFuel => OutOfFuel
  end.
Infix "<$$>" := map_result (at level 61, left associativity).

(** Every count of the table is strictly positive. *)
Definition positive_table (table : gmap string Z) : Prop :=
  ∀ (class_name : string) (count : Z), table !! class_name = Some count → 0 < count.

(** The progress value reported after [current] frames. *)
Definition progress_value (current total : Z) : Q := (inject_Z current / inject_Z total)%Q.

(** The exception the progress report after [current] frames raises, if
    it raises. *)
Definition report_error (current total : Z) : option exn :=
  if total =? 0 then Some ZeroDivisionError
  else if _check_float_between (progress_value current total) 0 1 then None
  else Some StreamlitValueOutOfRangeError.

(** The values the progress widget showed, in call order. *)
Definition progress_values (calls : list ui_event) : list Q :=
  omap (λ ev, match ev with ProgressSet value => Some value | _ => None end) calls.

(** [1/total, 2/total, ..., n/total] *)
Definition progress_seq (total : Z) (n : nat) : list Q :=
  (λ i : nat, progress_value (Z.of_nat i) total) <$> seq 1 n.

Definition nondecreasing (values : list Q) : Prop :=
  ∀ (i j : nat) (x y : Q),
    (i ≤ j)%nat → values !! i = Some x → values !! j = Some y → (x <= y)%Q.

(** A sequence of progress values as the specification wants it: never
    going down, never above 1, and ending at 1. *)
Definition progress_as_claimed (values : list Q) : Prop :=
  nondecreasing values
  ∧ Forall (λ v, (v <= 1)%Q) values
  ∧ ∃ v, last values = Some v ∧ (v == 1)%Q.

Section Vocabulary.
Context {Frame : Type} (self : BaseDetector Frame).

(** What frame [frame] contributes: its annotated copy and its table. *)
Definition annotated_of (frame : Frame) : Frame := (_run_inference self frame).1.
Definition stats_of (frame : Frame) : gmap string Z := (_run_inference self frame).2.

(** The UI calls of [n] turns of the loop that start after [frame_count]
    frames. *)
Fixpoint progress_calls (total frame_count : Z) (n : nat) : list ui_event :=
  match n with
  | O => []
  | S n =>
      ProgressSet (progress_value (frame_count + 1) total)
      :: StatusText (status_line (frame_count + 1) total)
      :: progress_calls total (frame_count + 1) n
  end.

(** The capture of [w] with [frames] left to read. *)
Definition capture_left (w : World Frame) (frames : list Frame) : VideoCapture Frame :=
  let video := cap_video (cap w) in
  mkCapture true
    (mkVideo (video_fps video) (video_width video) (video_height video)
       (video_frame_count video) frames).

(** The writer of [w] after it wrote [written] more. *)
Definition writer_after (w : World Frame) (written : list Frame) : VideoWriter Frame :=
  let o := out w in
  mkWriter (out_path o) (out_fps o) (out_size o) (out_frames o ++ written).

(** The world the loop leaves when it drains the frames of the capture. *)
Definition drained (total frame_count : Z) (w : World Frame) : World Frame :=
  let frames := video_frames (cap_video (cap w)) in
  mkWorld (files w) (unlink_denied w)
    (capture_left w [])
    (writer_after w (map annotated_of frames))
    (ui w ++ progress_calls total frame_count (length frames)).

(** The frames [_process_frames] will read from the capture of [w]. *)
Definition readable (w : World Frame) : list Frame :=
  if cap_opened (cap w) then video_frames (cap_video (cap w)) else [].

(** The world [_process_frames] leaves when no progress report raises. *)
Definition processed (total : Z) (w : World Frame) : World Frame :=
  mkWorld (files w) (unlink_denied w)
    (if cap_opened (cap w) then capture_left w [] else cap w)
    (writer_after w (map annotated_of (readable w)))
    (ui w ++ [ProgressCreate 0; StatusCreate]
          ++ progress_calls total 0 (length (readable w))
          ++ [ProgressEmpty; StatusEmpty]).

(** The world [_process_frames] leaves when the progress report of the
    frame at index [m] raises: the frames up to that one are written, the
    frames after it stay in the capture, and [m] reports were shown. *)
Definition aborted (total : Z) (m : nat) (w : World Frame) : World Frame :=
  mkWorld (files w) (unlink_denied w)
    (capture_left w (drop (S m) (readable w)))
    (writer_after w (map annotated_of (take (S m) (readable w))))
    (ui w ++ [ProgressCreate 0; StatusCreate] ++ progress_calls total 0 m).

(** What [_convert_to_h264] leaves at the output path for an intermediate
    file [data]: the transcoder's output when it ran and exited with
    status 0, the intermediate file itself otherwise. *)
Definition delivered (E : Env Frame) (data : list Byte.byte) : list Byte.byte :=
  match ffmpeg E with
  | None => data
  | Some transcode => if (transcode data).1 then (transcode data).2 else data
  end.

(** The container the writer of [detect] produces for [video]. *)
Definition raw_output (E : Env Frame) (video : Video Frame) : list Byte.byte :=
  mux E (video_fps video) (video_width video, video_height video)
    (annotated_of <$> video_frames video).

(** The paths [detect] creates in [w]: the intermediate file and the
    final output. *)
Definition intermediate_path (E : Env Frame) (w : World Frame) : string :=
  tmpname E (dom (files w)) ".avi".

Definition final_path (E : Env Frame) (w : World Frame) : string :=
  tmpname E ({[intermediate_path E w]} ∪ dom (files w)) ".mp4".

End Vocabulary.

(** * Stand-ins for the collaborators

    Frames are natural numbers (a frame tagged with its index); the
    stand-in engine honours the contract of [predict]: it reports the
    boxes of a frame that reach the confidence and, under a class
    restriction, belong to a listed class. *)

Module Stub.

Definition admits (conf_min : Q) (classes : option (list Z)) (box : Box) : bool :=
  Qle_bool conf_min (conf box)
  && match classes with
     | None => true
     | Some listed => bool_decide (cls box ∈ listed)
     end.

(** An engine that sees the boxes [raw frame] in a frame and renders frame
    [n] as [1000 + n]. *)
Definition model (raw : nat → list Box) : YOLO nat :=
  mkYOLO (λ frame conf_min classes,
    mkResults (1000 + frame)%nat (Some (List.filter (admits conf_min classes) (raw frame)))).

(** One car in each of the frames 0 to 4, nothing afterwards. *)
Definition cars_then_nothing (frame : nat) : list Box :=
  if (frame <? 5)%nat then [mkBox 1 (9 # 10)] else [].

(** Two humans and a car in every frame. *)
Definition street (frame : nat) : list Box :=
  [mkBox 0 (9 # 10); mkBox 1 (8 # 10); mkBox 0 (7 # 10)].

(** A temporary name: the first of [/tmp/tmp0<suffix>], ..., that does
    not exist. *)
Definition tmpname (existing : gset string) (suffix : string) : string :=
  match List.find (λ path, bool_decide (path ∉ existing))
          ((λ n : nat, "/tmp/tmp" +:+ pretty n +:+ suffix) <$> seq 0 8) with
  | Some path => path
  | None => fresh existing
  end.

(** A container of one byte for the declared frame count and one byte for
    each frame. *)
Definition demux (data : list Byte.byte) : option (Video nat) :=
  match data with
  | [] => None
  | declared :: frames =>
      Some (mkVideo 25 4 4 (Z.of_nat (Byte.to_nat declared)) (Byte.to_nat <$> frames))
  end.

Definition mux (fps : Z) (size : Z * Z) (frames : list nat) : list Byte.byte :=
  (λ frame, default Byte.x00 (Byte.of_nat (frame `mod` 256))) <$> frames.

(** No transcoder, one that fails and leaves a truncated file, one that
    works. *)
Definition env_no_ffmpeg : Env nat := mkEnv tmpname demux mux None.

Definition env_failing_ffmpeg : Env nat :=
  mkEnv tmpname demux mux (Some (λ data, (false, take 1 data))).

Definition env_ffmpeg : Env nat :=
  mkEnv tmpname demux mux (Some (λ data, (true, Byte.xff :: data))).

(** A detector over the street scene with no class selected. *)
Definition detector : BaseDetector nat := mkDetector (model street) (1 # 2) (Some []).

(** A two-frame video that declares [declared] frames. *)
Definition two_frames (declared : Byte.byte) : list Byte.byte :=
  [declared; Byte.x00; Byte.x01].

(** A world whose capture is open on frames 0 and 1. *)
Definition capturing : World nat :=
  mkWorld ∅ ∅ (mkCapture true (mkVideo 25 4 4 2 [0; 1]%nat))
    (mkWriter "/tmp/out.avi" 25 (4, 4) []) [].

(** A world with the raw output of a two-frame run on disk. *)
Definition with_raw_avi : World nat :=
  initial_world (<["/tmp/raw.avi" := two_frames Byte.x02]> ∅) ∅.

(** A world with no file, where the paths of [denied] cannot be deleted. *)
Definition empty_disk (denied : gset string) : World nat := initial_world ∅ denied.

(** A process that has loaded no model yet, with one model file and one
    file that is not a model on disk, and no accelerator. *)
Definition fresh_process : ModelService.State :=
  ModelService.mkState false {["models/best.pt"]} {["models/notes.pt" := TypeError]} ∅ [] 0.

End Stub.

(** * Further vocabulary *)

(** The number of boxes whose class identifier is [class_id]. *)
Definition boxes_of_class (class_id : Z) (detections : list Box) : Z :=
  Z.of_nat (length (filter (λ box, cls box = class_id) detections)).

(** The sum of all the counts of a table. *)
Definition total_count (table : gmap string Z) : Z :=
  map_fold (λ _ count acc, count + acc) 0 table.

(** A world that holds an uploaded two-frame video and a two-frame video
    whose container declares 0 frames; every file can be deleted. *)
Definition stub_uploaded : World nat :=
  initial_world
    (<["/tmp/zero.mp4" := Stub.two_frames Byte.x00]>
       (<["/tmp/in.mp4" := Stub.two_frames Byte.x02]> ∅)) ∅.

#[global] Instance model_event_eq_dec : EqDecision ModelService.event.
Proof. solve_decision. Defined.

(** How many times [model_path] was deserialized in a log of events. *)
Definition deserializations (model_path : string) (log : list ModelService.event) : nat :=
  length (filter (λ ev, ev = ModelService.Deserialize model_path) log).

(** A process that has loaded no model yet. *)
Definition new_process (cuda : bool) (on_disk : gset string) (broken : gmap string exn)
    : ModelService.State :=
  ModelService.mkState cuda on_disk broken ∅ [] 0.

(** What holds of the cache and the log in every state a fresh process
    can reach. *)
Definition cache_invariant (s : ModelService.State) : Prop :=
  (∀ model_path,
     deserializations model_path (ModelService.events s)
     = match ModelService.cache s !! model_path with Some _ => 1%nat | None => 0%nat end)
  ∧ (∀ model_path model,
       ModelService.cache s !! model_path = Some model →
       ModelService.source_path model = model_path
       ∧ (ModelService.handle model < ModelService.next_handle s)%nat
       ∧ ModelService.device model
         = if ModelService.cuda_is_available s then "cuda" else "cpu")
  ∧ (∀ p q m m',
       ModelService.cache s !! p = Some m → ModelService.cache s !! q = Some m' →
       ModelService.handle m = ModelService.handle m' → p = q).

(** The world [_save_uploaded_video] leaves: the upload is on disk under
    a new path. *)
Definition saved {Frame : Type} (E : Env Frame) (w : World Frame)
    (uploaded : list Byte.byte) : World Frame :=
  mkWorld (<[tmpname E (dom (files w)) ".mp4" := uploaded]> (files w))
    (unlink_denied w) (cap w) (out w) (ui w).

(** An application that has loaded no model yet, on an empty disk where
    every file can be deleted, with the default model selected. *)
Definition stub_app : AppState nat := mkAppState Stub.fresh_process (Stub.empty_disk ∅).

Definition stub_settings : SidebarComponent.SidebarSettings :=
  SidebarComponent.mkSidebarSettings (Some "models/best.pt") (1 # 2) [].

(** Every model object sees the street scene. *)
Definition stub_engine (model : ModelService.Model) : YOLO nat := Stub.model Stub.street.

(** The UI calls of one run of [_process_frames] that does not raise, on
    the frames of [video]. *)
Definition process_calls {Frame : Type} (video : Video Frame) : list ui_event :=
  [ProgressCreate 0; StatusCreate]
  ++ progress_calls (video_frame_count video) 0 (length (video_frames video))
  ++ [ProgressEmpty; StatusEmpty].

(** * Properties *)

(** ** Statistics extraction *)

Lemma dict_get_insert (d : gmap string Z) (k k' : string) (v dflt : Z) :
  dict_get (<[k := v]> d) k' dflt = if decide (k = k') then v else dict_get d k' dflt.
Proof.
  unfold dict_get. rewrite lookup_insert. by destruct (decide (k = k')).
Qed.

Lemma dict_get_empty (k : string) (dflt : Z) : dict_get ∅ k dflt = dflt.
Proof. unfold dict_get. by rewrite lookup_empty. Qed.

Lemma boxes_named_cons (class_name : string) (box : Box) (detections : list Box) :
  boxes_named class_name (box :: detections) =
  (if decide (Config.get_class_name (cls box) = class_name) then 1 else 0)
  + boxes_named class_name detections.
Proof.
  unfold boxes_named. rewrite filter_cons.
  destruct (decide (Config.get_class_name (cls box) = class_name)); simpl; lia.
Qed.

Lemma boxes_named_nonneg (class_name : string) (detections : list Box) :
  0 ≤ boxes_named class_name detections.
Proof. unfold boxes_named. lia. Qed.

Lemma boxes_named_pos (class_name : string) (detections : list Box) :
  0 < boxes_named class_name detections ↔
  ∃ box, box ∈ detections ∧ Config.get_class_name (cls box) = class_name.
Proof.
  induction detections as [|b l IH].
  - split; [unfold boxes_named; simpl; lia|]. intros (box & Hin & _). inversion Hin.
  - rewrite boxes_named_cons. pose proof (boxes_named_nonneg class_name l).
    destruct (decide (Config.get_class_name (cls b) = class_name)) as [Heq|Hne].
    + split; [|lia]. intros _. exists b. split; [left|done].
    + rewrite Z.add_0_l, IH. split.
      * intros (box & Hin & Hn). exists box. split; [by right|done].
      * intros (box & Hin & Hn). apply elem_of_cons in Hin as [->|Hin]; [done|].
        by exists box.
Qed.

Lemma count_box_get (stats : gmap string Z) (box : Box) (class_name : string) :
  dict_get (count_box stats box) class_name 0 =
  dict_get stats class_name 0
  + (if decide (Config.get_class_name (cls box) = class_name) then 1 else 0).
Proof.
  unfold count_box. rewrite dict_get_insert.
  destruct (decide (Config.get_class_name (cls box) = class_name)) as [->|]; lia.
Qed.

Lemma foldl_count_box_get (detections : list Box) (stats : gmap string Z) (class_name : string) :
  dict_get (foldl count_box stats detections) class_name 0 =
  dict_get stats class_name 0 + boxes_named class_name detections.
Proof.
  revert stats. induction detections as [|b l IH]; intros stats; simpl.
  - unfold boxes_named. simpl. lia.
  - rewrite IH, count_box_get, boxes_named_cons. lia.
Qed.

Lemma extract_statistics_foldl (detections : option (list Box)) :
  _extract_statistics detections = foldl count_box ∅ (default [] detections).
Proof. by destruct detections as [[|b l]|]. Qed.

Lemma extract_statistics_get (detections : option (list Box)) (class_name : string) :
  dict_get (_extract_statistics detections) class_name 0 =
  boxes_named class_name (default [] detections).
Proof.
  rewrite extract_statistics_foldl, foldl_count_box_get, dict_get_empty. lia.
Qed.

Lemma registry_lookup (class_id : Z) (c : Config.DetectionClass) :
  Config.DETECTION_CLASSES !! class_id = Some c →
  (class_id = 0 ∧ Config.name c = "Human") ∨ (class_id = 1 ∧ Config.name c = "Car").
Proof.
  unfold Config.DETECTION_CLASSES. rewrite !lookup_insert.
  destruct (decide (1 = class_id)) as [<-|]; [intros [= <-]; by right|].
  destruct (decide (0 = class_id)) as [<-|]; [intros [= <-]; by left|].
  by rewrite lookup_empty.
Qed.

Lemma placeholder_not_registered (class_id k : Z) (c : Config.DetectionClass) :
  Config.DETECTION_CLASSES !! k = Some c →
  Config.name c ≠ Config.placeholder_name class_id.
Proof.
  intros [[_ ->]|[_ ->]]%registry_lookup; unfold Config.placeholder_name; simpl; discriminate.
Qed.

Example scenario_a :
  map_to_list
    (_extract_statistics (Some [mkBox 0 (9 # 10); mkBox 1 (8 # 10); mkBox 0 (7 # 10)]))
  = [("Car", 1); ("Human", 2)].
Proof. vm_compute. reflexivity. Qed.

Example unknown_class_counted :
  map_to_list
    (_extract_statistics (Some [mkBox 7 (9 # 10); mkBox (-3) (8 # 10); mkBox 7 (7 # 10)]))
  = [("Class 7", 2); ("Class -3", 1)].
Proof. vm_compute. reflexivity. Qed.

(** C1. For every list of boxes given to [_extract_statistics], the count
    of the table for a display name (0 when the name is absent) is the
    number of boxes whose class identifier resolves to that name. A
    registered identifier resolves to the name of its class; any other
    identifier [N] resolves to the placeholder "Class N", which is the
    name of no registered class; so [get_class_name] has a value for
    every identifier. *)
Theorem extract_statistics_correct :
  (∀ (detections : option (list Box)) (class_name : string),
     dict_get (_extract_statistics detections) class_name 0 =
     boxes_named class_name (default [] detections))
  ∧ (∀ (class_id : Z) (c : Config.DetectionClass),
       Config.DETECTION_CLASSES !! class_id = Some c →
       Config.get_class_name class_id = Config.name c)
  ∧ (∀ class_id : Z,
       Config.DETECTION_CLASSES !! class_id = None →
       Config.get_class_name class_id = "Class " +:+ pretty class_id
       ∧ ∀ (k : Z) (c : Config.DetectionClass),
           Config.DETECTION_CLASSES !! k = Some c →
           Config.name c ≠ Config.get_class_name class_id).
Proof.
  split; [exact extract_statistics_get|]. split.
  - intros class_id c H. unfold Config.get_class_name. by rewrite H.
  - intros class_id H. unfold Config.get_class_name. rewrite H. split; [done|].
    intros k c Hk. by apply placeholder_not_registered with k.
Qed.

Lemma extract_statistics_correct_witness :
  Config.get_class_name 7 = "Class " +:+ pretty 7
  ∧ Config.get_class_name 1 = "Car"
  ∧ dict_get (_extract_statistics (Some [mkBox 7 (1 # 2); mkBox 1 (1 # 2); mkBox 7 (1 # 2)]))
      "Class 7" 0 = 2.
Proof.
  destruct extract_statistics_correct as (Hcount & Hknown & Hunknown).
  split; [|split].
  - apply (Hunknown 7). vm_compute; reflexivity.
  - apply (Hknown 1 (Config.mkDetectionClass 1 "Car" "🚗")). vm_compute; reflexivity.
  - rewrite Hcount. vm_compute; reflexivity.
Defined.

(** ** Merging statistics *)

Lemma merge_statistics_lookup (total frame_stats : gmap string Z) (class_name : string) :
  _merge_statistics total frame_stats !! class_name =
  match frame_stats !! class_name with
  | None => total !! class_name
  | Some count => Some (dict_get total class_name 0 + count)
  end.
Proof.
  unfold _merge_statistics. revert class_name.
  apply (map_fold_weak_ind
    (λ (r : gmap string Z) (m : gmap string Z), ∀ k : string,
       r !! k = match m !! k with
                | None => total !! k
                | Some count => Some (dict_get total k 0 + count)
                end)).
  - intros k. by rewrite lookup_empty.
  - intros i x m r Hi IH k. rewrite !lookup_insert.
    destruct (decide (i = k)) as [<-|Hne]; [|apply IH].
    unfold dict_get. by rewrite IH, Hi.
Qed.

Lemma merge_statistics_get (total frame_stats : gmap string Z) (class_name : string) :
  dict_get (_merge_statistics total frame_stats) class_name 0 =
  dict_get total class_name 0 + dict_get frame_stats class_name 0.
Proof.
  unfold dict_get at 1 3. rewrite merge_statistics_lookup.
  destruct (frame_stats !! class_name); simpl; [done|]. unfold dict_get. lia.
Qed.


Lemma foldl_merge_statistics_get (tables : list (gmap string Z)) (total : gmap string Z)
    (class_name : string) :
  dict_get (foldl _merge_statistics total tables) class_name 0 =
  dict_get total class_name 0 + sum_counts class_name tables.
Proof.
  revert total. induction tables as [|t l IH]; intros total; simpl; [lia|].
  rewrite IH, merge_statistics_get. lia.
Qed.

Lemma sum_counts_Permutation (class_name : string) (tables tables' : list (gmap string Z)) :
  tables ≡ₚ tables' → sum_counts class_name tables = sum_counts class_name tables'.
Proof.
  induction 1; simpl; lia.
Qed.

Example merge_example :
  map_to_list (_merge_statistics (<["Car" := 2]> ∅) (<["Human" := 1]> (<["Car" := 3]> ∅)))
  = [("Car", 5); ("Human", 1)].
Proof. vm_compute. reflexivity. Qed.

(** ** The drain loop *)

Section DrainLoop.
Context {Frame : Type} (self : BaseDetector Frame).

Lemma bind_OK {St A B : Type} (c : M St A) (k : A → M St B) (s s' : St) (a : A) :
  c s = (OK a, s') → bind c k s = k a s'.
Proof. unfold bind. by intros ->. Qed.

Lemma bind_Raise {St A B : Type} (c : M St A) (k : A → M St B) (s s' : St) (e : exn) :
  c s = (Raise e, s') → bind c k s = (Raise e, s').
Proof. unfold bind. by intros ->. Qed.

(** *** The range check of the widget *)

Lemma check_float_between_in_range (value : Q) :
  (0 <= value)%Q → (value <= 1)%Q → _check_float_between value 0 1 = true.
Proof.
  intros Hlow Hhigh. unfold _check_float_between.
  apply Qle_bool_iff in Hlow, Hhigh. by rewrite Hlow, Hhigh.
Qed.

Ltac abs_cases x :=
  let Hsign := fresh "Hsign" in
  destruct (Qlt_le_dec x 0) as [Hsign|Hsign];
  [pose proof (Qabs_neg x (Qlt_le_weak _ _ Hsign))|pose proof (Qabs_pos x Hsign)].

Ltac max_cases :=
  repeat match goal with
  | H : context [Qmax ?a ?b] |- _ =>
      lazymatch a with
      | context [Qmax _ _] => fail
      | _ =>
        let m := fresh "m" in
        destruct (Q.max_spec a b) as [[? ?]|[? ?]];
        set (m := Qmax a b) in *; clearbody m
      end
  end.

(** A value the widget takes is not below [-1e-9] and not above
    [1 / (1 - 1e-9)]. *)
Lemma check_float_between_bounds (value : Q) :
  _check_float_between value 0 1 = true →
  (- tolerance <= value)%Q ∧ (value <= 1000000000 # 999999999)%Q.
Proof.
  unfold _check_float_between, isclose, tolerance.
  rewrite !orb_true_iff, andb_true_iff, !Qle_bool_iff.
  assert (Qabs 0 == 0)%Q as H0 by reflexivity.
  assert (Qabs 1 == 1)%Q as H1 by reflexivity.
  intros [[[Hl Hh]|Hc]|Hc].
  - lra.
  - abs_cases (value - 0)%Q; abs_cases value; max_cases; lra.
  - abs_cases (value - 1)%Q; abs_cases value; max_cases; lra.
Qed.


(** *** One progress report *)

Lemma report_error_in_range (current total : Z) :
  0 < total → 0 ≤ current ≤ total → report_error current total = None.
Proof.
  intros Htot [Hlow Hhigh]. unfold report_error.
  destruct (Z.eqb_spec total 0) as [|_]; [lia|].
  rewrite check_float_between_in_range; [done| |].
  - unfold progress_value. apply Qle_shift_div_l.
    + change 0%Q with (inject_Z 0). by rewrite <- Zlt_Qlt.
    + rewrite Qmult_0_l. change 0%Q with (inject_Z 0). by rewrite <- Zle_Qle.
  - unfold progress_value. apply Qle_shift_div_r.
    + change 0%Q with (inject_Z 0). by rewrite <- Zlt_Qlt.
    + by rewrite Qmult_1_l, <- Zle_Qle.
Qed.

Lemma report_error_zero (current : Z) : report_error current 0 = Some ZeroDivisionError.
Proof. reflexivity. Qed.

(** More frames than a positive declared count (below 999999999, where
    the slack of the widget ends): the report is above the range. *)
Lemma report_error_above (current total : Z) :
  0 < total < 999999999 → total < current →
  report_error current total = Some StreamlitValueOutOfRangeError.
Proof.
  intros Htot Hcur. unfold report_error.
  destruct (Z.eqb_spec total 0) as [|_]; [lia|].
  destruct (_check_float_between _ 0 1) eqn:Hcheck; [|done].
  apply check_float_between_bounds in Hcheck as [_ Hhigh]. exfalso. revert Hhigh.
  unfold progress_value, Qle, Qdiv, Qmult, Qinv. destruct total as [|p|p]; simpl; lia.
Qed.


Lemma report_error_kinds (current total : Z) (e : exn) :
  report_error current total = Some e →
  (e = ZeroDivisionError ∧ total = 0)
  ∨ (e = StreamlitValueOutOfRangeError ∧ total ≠ 0
     ∧ _check_float_between (progress_value current total) 0 1 = false).
Proof.
  unfold report_error. destruct (Z.eqb_spec total 0) as [->|Hne].
  - intros [= <-]. by left.
  - destruct (_check_float_between _ 0 1) eqn:Hcheck; [done|]. intros [= <-]. by right.
Qed.

Lemma update_progress_result (current total : Z) (w : World Frame) :
  _update_progress current total w =
  match report_error current total with
  | Some e => (Raise e, w)
  | None =>
      (OK tt,
       mkWorld (files w) (unlink_denied w) (cap w) (out w)
         (ui w ++ [ProgressSet (progress_value current total);
                   StatusText (status_line current total)]))
  end.
Proof.
  unfold _update_progress, report_error, true_div, progress_bar_progress.
  destruct (Z.eqb_spec total 0) as [|_]; [done|].
  unfold bind at 1, ret at 1. fold (progress_value current total).
  destruct (_check_float_between _ 0 1); [|done].
  cbn. by rewrite <- app_assoc.
Qed.

Lemma update_progress_ok (current total : Z) (w : World Frame) :
  report_error current total = None →
  _update_progress current total w =
  (OK tt,
   mkWorld (files w) (unlink_denied w) (cap w) (out w)
     (ui w ++ [ProgressSet (progress_value current total);
               StatusText (status_line current total)])).
Proof. intros Hgo. by rewrite update_progress_result, Hgo. Qed.

Lemma update_progress_raises (current total : Z) (e : exn) (w : World Frame) :
  report_error current total = Some e → _update_progress current total w = (Raise e, w).
Proof. intros Hgo. by rewrite update_progress_result, Hgo. Qed.

Lemma update_progress_zero (current : Z) (w : World Frame) :
  _update_progress current 0 w = (Raise ZeroDivisionError, w).
Proof. reflexivity. Qed.

(** Among the next [n] reports either none raises or there is a first
    one that does. *)
Lemma first_report_error (total frame_count : Z) (n : nat) :
  (∀ k : nat, (1 ≤ k ≤ n)%nat → report_error (frame_count + Z.of_nat k) total = None)
  ∨ ∃ (m : nat) (e : exn),
      (m < n)%nat
      ∧ (∀ k : nat, (1 ≤ k ≤ m)%nat → report_error (frame_count + Z.of_nat k) total = None)
      ∧ report_error (frame_count + Z.of_nat (S m)) total = Some e.
Proof.
  induction n as [|n [Hall|(m & e & Hm & Hbefore & Hat)]].
  - left. intros k Hk. lia.
  - destruct (report_error (frame_count + Z.of_nat (S n)) total) as [e|] eqn:Hnext.
    + right. exists n, e. split; [lia|]. split; [done|done].
    + left. intros k Hk. destruct (decide (k = S n)) as [->|]; [done|]. apply Hall. lia.
  - right. exists m, e. split; [lia|done].
Qed.

(** Name the parts of a world and of the video its capture holds. *)
Ltac open_world w :=
  let fs := fresh "fs" in let den := fresh "den" in let op := fresh "op" in
  let video := fresh "video" in let o := fresh "o" in let u := fresh "u" in
  destruct w as [fs den [op video] o u]; simpl in *.

(** *** The loop *)

Lemma drain_loop_ok (frames : list Frame) :
  ∀ (fuel : nat) (total : Z) (stats : gmap string Z) (frame_count : Z) (w : World Frame),
    cap_opened (cap w) = true →
    video_frames (cap_video (cap w)) = frames →
    (length frames < fuel)%nat →
    (∀ k : nat, (1 ≤ k ≤ length frames)%nat →
                report_error (frame_count + Z.of_nat k) total = None) →
    drain_loop fuel self total stats frame_count w =
    (OK (foldl _merge_statistics stats (map (stats_of self) frames)), drained self total frame_count w).
Proof.
  induction frames as [|frame rest IH]; intros fuel total stats frame_count w Hop Hfr Hfuel Hgo.
  - destruct fuel as [|fuel]; [simpl in Hfuel; lia|].
    open_world w. subst op. destruct video as [f wd h c frs]. simpl in *. subst frs.
    cbn. unfold ret, drained, capture_left, writer_after. simpl.
    destruct o. simpl. by rewrite !app_nil_r.
  - destruct fuel as [|fuel]; [simpl in Hfuel; lia|].
    open_world w. subst op. destruct video as [f wd h c frs]. simpl in *. subst frs.
    cbn. erewrite bind_OK; [|apply update_progress_ok; apply (Hgo 1%nat); lia].
    rewrite IH; [|done|done|lia|].
    + unfold drained, capture_left, writer_after, stats_of, annotated_of. simpl.
      by rewrite <- !app_assoc.
    + intros k Hk. replace (frame_count + 1 + Z.of_nat k) with (frame_count + Z.of_nat (S k))
        by lia. apply Hgo. lia.
Qed.

Lemma drain_loop_closed (fuel : nat) (total : Z) (stats : gmap string Z) (frame_count : Z)
    (w : World Frame) :
  cap_opened (cap w) = false →
  drain_loop (S fuel) self total stats frame_count w = (OK stats, w).
Proof.
  intros Hop. open_world w. by subst op.
Qed.

(** When the report of the frame after [before] raises, the loop has
    written that frame and those before it, and leaves the others in the
    capture. *)
Lemma drain_loop_raises (before : list Frame) :
  ∀ (frame : Frame) (rest : list Frame) (e : exn) (fuel : nat) (total : Z)
    (stats : gmap string Z) (frame_count : Z) (w : World Frame),
    cap_opened (cap w) = true →
    video_frames (cap_video (cap w)) = before ++ frame :: rest →
    (length before < fuel)%nat →
    (∀ k : nat, (1 ≤ k ≤ length before)%nat →
                report_error (frame_count + Z.of_nat k) total = None) →
    report_error (frame_count + Z.of_nat (S (length before))) total = Some e →
    drain_loop fuel self total stats frame_count w =
    (Raise e,
     mkWorld (files w) (unlink_denied w) (capture_left w rest)
       (writer_after w (map (annotated_of self) (before ++ [frame])))
       (ui w ++ progress_calls total frame_count (length before))).
Proof.
  induction before as [|first before IH];
    intros frame rest e fuel total stats frame_count w Hop Hfr Hfuel Hgo Hat.
  - destruct fuel as [|fuel]; [simpl in Hfuel; lia|].
    open_world w. subst op. destruct video as [f wd h c frs]. simpl in *. subst frs.
    cbn. erewrite bind_Raise; [|apply update_progress_raises; exact Hat].
    unfold capture_left, writer_after, annotated_of. simpl. by rewrite app_nil_r.
  - destruct fuel as [|fuel]; [simpl in Hfuel; lia|].
    open_world w. subst op. destruct video as [f wd h c frs]. simpl in *. subst frs.
    cbn. erewrite bind_OK; [|apply update_progress_ok; apply (Hgo 1%nat); lia].
    erewrite IH; [| |reflexivity|lia| |]; [|done| |].
    + unfold capture_left, writer_after, annotated_of. simpl. by rewrite <- !app_assoc.
    + intros k Hk. replace (frame_count + 1 + Z.of_nat k) with (frame_count + Z.of_nat (S k))
        by lia. apply Hgo. lia.
    + replace (frame_count + 1 + Z.of_nat (S (length before)))
        with (frame_count + Z.of_nat (S (S (length before)))) by lia. exact Hat.
Qed.

(** With a declared frame count of 0 the first turn of the loop reads a
    frame, writes its annotated copy and raises when it reports progress. *)
Lemma drain_loop_zero (frame : Frame) (rest : list Frame) (fuel : nat)
    (stats : gmap string Z) (frame_count : Z) (w : World Frame) :
  cap_opened (cap w) = true →
  video_frames (cap_video (cap w)) = frame :: rest →
  drain_loop (S fuel) self 0 stats frame_count w =
  (Raise ZeroDivisionError,
   mkWorld (files w) (unlink_denied w) (capture_left w rest)
     (writer_after w [annotated_of self frame]) (ui w)).
Proof.
  intros Hop Hfr.
  open_world w. subst op. destruct video as [f wd h c frs]. simpl in *. subst frs.
  reflexivity.
Qed.

(** *** [_process_frames] *)

Lemma process_frames_ok (total : Z) (w : World Frame) :
  (∀ k : nat, (1 ≤ k ≤ length (readable w))%nat → report_error (Z.of_nat k) total = None) →
  _process_frames self total w =
  (OK (foldl _merge_statistics ∅ (map (stats_of self) (readable w))), processed self total w).
Proof.
  intros Hgo. unfold _process_frames, readable, processed in *.
  destruct w as [fs den [op video] o u]. cbn -[drain_loop].
  destruct op.
  - erewrite bind_OK;
      [|by apply drain_loop_ok with (frames := video_frames video); simpl; try lia].
    cbn. unfold writer_after, capture_left, readable. simpl.
    by rewrite <- !app_assoc.
  - erewrite bind_OK; [|by apply drain_loop_closed].
    cbn. unfold writer_after, readable. simpl. destruct o; simpl.
    by rewrite <- !app_assoc, !app_nil_r.
Qed.

Lemma process_frames_raises (total : Z) (m : nat) (e : exn) (w : World Frame) :
  (m < length (readable w))%nat →
  (∀ k : nat, (1 ≤ k ≤ m)%nat → report_error (Z.of_nat k) total = None) →
  report_error (Z.of_nat (S m)) total = Some e →
  _process_frames self total w = (Raise e, aborted self total m w).
Proof.
  intros Hm Hgo Hat. unfold _process_frames, readable, aborted in *.
  destruct w as [fs den [op video] o u]. cbn -[drain_loop] in *.
  destruct op; [|simpl in Hm; lia]. cbn -[drain_loop] in *.
  destruct (lookup_lt_is_Some_2 (video_frames video) m Hm) as [frame Hframe].
  pose proof (take_drop_middle _ _ _ Hframe) as Hsplit.
  assert (length (take m (video_frames video)) = m) as Hlen by (rewrite length_take; lia).
  erewrite bind_Raise.
  2:{ eapply (drain_loop_raises (take m (video_frames video)) frame
                (drop (S m) (video_frames video)) e); simpl;
        [done|by rewrite Hsplit|rewrite Hlen; lia| |].
      - rewrite Hlen. intros k Hk. by apply Hgo.
      - rewrite Hlen. exact Hat. }
  unfold capture_left, writer_after, readable. simpl. rewrite Hlen.
  rewrite (take_S_r _ _ _ Hframe). by rewrite <- !app_assoc.
Qed.

(** The declared count covers the frames: every report is in range. *)
Lemma reports_in_range (total : Z) (n : nat) :
  n = 0%nat ∨ (0 < total ∧ Z.of_nat n ≤ total) →
  ∀ k : nat, (1 ≤ k ≤ n)%nat → report_error (Z.of_nat k) total = None.
Proof.
  intros [->|[Htot Hn]] k Hk; [lia|]. apply report_error_in_range; lia.
Qed.

Lemma process_frames_in_range (total : Z) (w : World Frame) :
  readable w = [] ∨ (0 < total ∧ Z.of_nat (length (readable w)) ≤ total) →
  _process_frames self total w =
  (OK (foldl _merge_statistics ∅ (map (stats_of self) (readable w))), processed self total w).
Proof.
  intros Hcover. apply process_frames_ok, reports_in_range.
  destruct Hcover as [->|?]; [by left|by right].
Qed.

Lemma process_frames_zero (frame : Frame) (rest : list Frame) (w : World Frame) :
  readable w = frame :: rest →
  _process_frames self 0 w =
  (Raise ZeroDivisionError,
   mkWorld (files w) (unlink_denied w) (capture_left w rest)
     (writer_after w [annotated_of self frame])
     (ui w ++ [ProgressCreate 0; StatusCreate])).
Proof.
  intros Hfr. rewrite (process_frames_raises 0 0 ZeroDivisionError);
    [|rewrite Hfr; simpl; lia|intros k Hk; lia|done].
  unfold aborted. rewrite Hfr. reflexivity.
Qed.

(** Whatever [_process_frames] does, it is one of the two: it returns
    with every frame processed, or the report of some frame raised. *)
Lemma process_frames_cases (total : Z) (w : World Frame) :
  ((∀ k : nat, (1 ≤ k ≤ length (readable w))%nat → report_error (Z.of_nat k) total = None)
   ∧ _process_frames self total w =
     (OK (foldl _merge_statistics ∅ (map (stats_of self) (readable w))),
      processed self total w))
  ∨ ∃ (m : nat) (e : exn),
      (m < length (readable w))%nat
      ∧ (∀ k : nat, (1 ≤ k ≤ m)%nat → report_error (Z.of_nat k) total = None)
      ∧ report_error (Z.of_nat (S m)) total = Some e
      ∧ _process_frames self total w = (Raise e, aborted self total m w).
Proof.
  destruct (first_report_error total 0 (length (readable w)))
    as [Hall|(m & e & Hm & Hbefore & Hat)].
  - left. split; [done|]. by apply process_frames_ok.
  - right. exists m, e. split; [done|]. split; [done|]. split; [done|].
    by apply process_frames_raises.
Qed.

End DrainLoop.

(** ** The cumulative table of the video pipeline *)

Example scenario_b_statistics :
  (entries <$$> _process_frames (mkDetector (Stub.model Stub.cars_then_nothing) (1 # 2) (Some [])) 10
     (mkWorld ∅ ∅ (mkCapture true (mkVideo 25 4 4 10 (seq 0 10)))
        (mkWriter "/tmp/out.avi" 25 (4, 4) []) []))
  = OK [("Car", 5)].
Proof. vm_compute. reflexivity. Qed.

(** C2. Merging per-frame tables one after the other into an empty table
    gives, for every class name, the sum of the counts of that name over
    the tables, a table without the name counting 0. [_process_frames]
    returns whenever the declared frame count covers the frames to read
    (it is positive and not below their number, or there is no frame to
    read), and whenever it returns, the table it returns is the per-frame
    tables of the frames read, merged in order: its count for a class name
    is exactly the sum over the frames. *)
Theorem cumulative_statistics_sum {Frame : Type} (self : BaseDetector Frame) :
  (∀ (tables : list (gmap string Z)) (class_name : string),
     dict_get (foldl _merge_statistics ∅ tables) class_name 0 = sum_counts class_name tables)
  ∧ (∀ (total : Z) (w : World Frame),
       readable w = [] ∨ (0 < total ∧ Z.of_nat (length (readable w)) ≤ total) →
       ∃ stats w', _process_frames self total w = (OK stats, w'))
  ∧ (∀ (total : Z) (w w' : World Frame) (stats : gmap string Z),
       _process_frames self total w = (OK stats, w') →
       stats = foldl _merge_statistics ∅ (stats_of self <$> readable w)
       ∧ ∀ class_name : string,
           dict_get stats class_name 0 = sum_counts class_name (stats_of self <$> readable w)).
Proof.
  split; [|split].
  - intros tables class_name. by rewrite foldl_merge_statistics_get, dict_get_empty.
  - intros total w Hcover. eexists _, _. by apply process_frames_in_range.
  - intros total w w' stats Hrun.
    assert (stats = foldl _merge_statistics ∅ (stats_of self <$> readable w)) as ->.
    { destruct (process_frames_cases self total w) as [[_ Hok]|(m & e & _ & _ & _ & Hraise)].
      - rewrite Hok in Hrun. by injection Hrun.
      - by rewrite Hraise in Hrun. }
    split; [done|]. intros class_name.
    by rewrite foldl_merge_statistics_get, dict_get_empty.
Qed.

Lemma cumulative_statistics_sum_witness :
  ∃ (stats : gmap string Z) (w' : World nat),
    _process_frames Stub.detector 2 Stub.capturing = (OK stats, w')
    ∧ dict_get stats "Human" 0 = 4.
Proof.
  destruct (cumulative_statistics_sum Stub.detector) as (_ & Hreturns & Hsum).
  destruct (Hreturns 2 Stub.capturing) as (stats & w' & Hrun); [right; simpl; lia|].
  exists stats, w'. split; [exact Hrun|].
  destruct (Hsum 2 Stub.capturing w' stats Hrun) as [_ ->]. vm_compute; reflexivity.
Defined.

(** ** Empty class selection *)

(** C3. With no class selected ([None] or the empty list) [_run_inference]
    calls [predict] with no class restriction, and the table it returns is
    the table of the boxes that call returned, all of them: every count is
    the number of returned boxes of that name, so every class of a
    returned box is in the table. *)
Theorem empty_selection_is_unrestricted {Frame : Type} (self : BaseDetector Frame)
    (frame : Frame) :
  _classes self = None ∨ _classes self = Some [] →
  _run_inference self frame =
    (plot (predict (_model self) frame (_confidence self) None),
     _extract_statistics (boxes (predict (_model self) frame (_confidence self) None)))
  ∧ (∀ class_name : string,
       dict_get (_run_inference self frame).2 class_name 0 =
       boxes_named class_name
         (default [] (boxes (predict (_model self) frame (_confidence self) None))))
  ∧ (∀ box : Box,
       box ∈ default [] (boxes (predict (_model self) frame (_confidence self) None)) →
       0 < dict_get (_run_inference self frame).2 (Config.get_class_name (cls box)) 0).
Proof.
  intros Hempty.
  assert (classes_argument (_classes self) = None) as Harg.
  { by destruct Hempty as [-> | ->]. }
  unfold _run_inference. rewrite Harg. simpl. split; [done|]. split.
  - intros class_name. apply extract_statistics_get.
  - intros box Hin. rewrite extract_statistics_get. apply boxes_named_pos. by exists box.
Qed.

Lemma empty_selection_is_unrestricted_witness :
  map_to_list (_run_inference Stub.detector 3%nat).2 = [("Car", 1); ("Human", 2)]
  ∧ 0 < dict_get (_run_inference Stub.detector 3%nat).2 "Car" 0.
Proof.
  destruct (empty_selection_is_unrestricted Stub.detector 3%nat) as (Hrun & _ & Hin);
    [by right|].
  split; [vm_compute; reflexivity|].
  apply (Hin (mkBox 1 (8 # 10))). vm_compute. right. left.
Defined.

Example scenario_c :
  map_to_list (_run_inference (mkDetector (Stub.model Stub.street) (1 # 2) (Some [1])) 3%nat).2
  = [("Car", 1)].
Proof. vm_compute. reflexivity. Qed.

(** ** Positive counts *)

Lemma count_box_lookup (stats : gmap string Z) (box : Box) (class_name : string) :
  count_box stats box !! class_name =
  if decide (Config.get_class_name (cls box) = class_name)
  then Some (dict_get stats class_name 0 + 1)
  else stats !! class_name.
Proof.
  unfold count_box. rewrite lookup_insert.
  by destruct (decide (Config.get_class_name (cls box) = class_name)) as [->|].
Qed.

Lemma foldl_count_box_lookup (detections : list Box) (stats : gmap string Z)
    (class_name : string) :
  foldl count_box stats detections !! class_name =
  if decide (0 < boxes_named class_name detections)
  then Some (dict_get stats class_name 0 + boxes_named class_name detections)
  else stats !! class_name.
Proof.
  revert stats. induction detections as [|b l IH]; intros stats.
  - simpl. by destruct (decide (0 < boxes_named class_name [])).
  - simpl. rewrite IH, count_box_get, count_box_lookup, boxes_named_cons.
    pose proof (boxes_named_nonneg class_name l).
    destruct (decide (Config.get_class_name (cls b) = class_name));
      repeat case_decide; try lia; try done; f_equal; lia.
Qed.

Lemma extract_statistics_lookup (detections : option (list Box)) (class_name : string) :
  _extract_statistics detections !! class_name =
  if decide (0 < boxes_named class_name (default [] detections))
  then Some (boxes_named class_name (default [] detections))
  else None.
Proof.
  rewrite extract_statistics_foldl, foldl_count_box_lookup, dict_get_empty, lookup_empty.
  by rewrite Z.add_0_l.
Qed.

Lemma extract_statistics_positive (detections : option (list Box)) :
  positive_table (_extract_statistics detections).
Proof.
  intros class_name count. rewrite extract_statistics_lookup.
  case_decide; [|done]. by intros [= <-].
Qed.

Lemma extract_statistics_present (detections : option (list Box)) (class_name : string) :
  is_Some (_extract_statistics detections !! class_name) ↔
  ∃ box, box ∈ default [] detections ∧ Config.get_class_name (cls box) = class_name.
Proof.
  rewrite <- boxes_named_pos, extract_statistics_lookup.
  case_decide; split; done.
Qed.

Lemma merge_statistics_positive (total frame_stats : gmap string Z) :
  positive_table total → positive_table frame_stats →
  positive_table (_merge_statistics total frame_stats).
Proof.
  intros Htotal Hframe class_name count. rewrite merge_statistics_lookup.
  destruct (frame_stats !! class_name) as [c|] eqn:Hc; [|apply Htotal].
  intros [= <-]. specialize (Hframe _ _ Hc). unfold dict_get.
  destruct (total !! class_name) as [t|] eqn:Ht; simpl; [|lia].
  specialize (Htotal _ _ Ht). lia.
Qed.

Lemma merge_statistics_present (total frame_stats : gmap string Z) (class_name : string) :
  is_Some (_merge_statistics total frame_stats !! class_name) ↔
  is_Some (total !! class_name) ∨ is_Some (frame_stats !! class_name).
Proof.
  rewrite merge_statistics_lookup.
  destruct (frame_stats !! class_name) as [c|]; split; eauto.
  intros [H|[x [=]]]; done.
Qed.

Lemma merge_statistics_grows (total frame_stats : gmap string Z) (class_name : string)
    (count : Z) :
  positive_table frame_stats →
  total !! class_name = Some count →
  ∃ count', _merge_statistics total frame_stats !! class_name = Some count' ∧ count ≤ count'.
Proof.
  intros Hframe Ht. rewrite merge_statistics_lookup.
  destruct (frame_stats !! class_name) as [c|] eqn:Hc.
  - specialize (Hframe _ _ Hc). unfold dict_get. rewrite Ht. simpl.
    eexists. split; [done|lia].
  - exists count. split; [done|lia].
Qed.

Lemma cumulative_positive (frames : list (option (list Box))) :
  positive_table (foldl _merge_statistics ∅ (_extract_statistics <$> frames)).
Proof.
  induction frames as [|detections frames IH] using rev_ind.
  - intros class_name count. simpl. by rewrite lookup_empty.
  - rewrite fmap_app, foldl_app. simpl.
    apply merge_statistics_positive; [done|apply extract_statistics_positive].
Qed.

Lemma cumulative_present (frames : list (option (list Box))) (class_name : string) :
  is_Some (foldl _merge_statistics ∅ (_extract_statistics <$> frames) !! class_name) ↔
  ∃ detections box,
    detections ∈ frames ∧ box ∈ default [] detections
    ∧ Config.get_class_name (cls box) = class_name.
Proof.
  induction frames as [|detections frames IH] using rev_ind.
  - simpl. rewrite lookup_empty. split; [by intros [x [=]]|].
    intros (d & b & Hd & _). inversion Hd.
  - rewrite fmap_app, foldl_app. simpl.
    rewrite merge_statistics_present, IH, extract_statistics_present. split.
    + intros [(d & b & Hd & Hb & Hn)|(b & Hb & Hn)].
      * exists d, b. rewrite elem_of_app. eauto.
      * exists detections, b. rewrite elem_of_app, list_elem_of_singleton. eauto.
    + intros (d & b & Hd & Hb & Hn).
      apply elem_of_app in Hd as [Hd|Hd%list_elem_of_singleton]; [left|right; subst d]; eauto.
Qed.

(** C10. A table [_extract_statistics] produces has only strictly positive
    counts, and holds a class name exactly when a box of that name was
    counted. Merging a table of positive counts into a table of positive
    counts gives positive counts, lowers no count, and holds exactly the
    names of the two. So the cumulative table of any sequence of frames has
    only positive counts and holds a name exactly when some frame had a box
    of that name. *)
Theorem statistics_tables_positive :
  (∀ detections : option (list Box),
     positive_table (_extract_statistics detections)
     ∧ ∀ class_name : string,
         is_Some (_extract_statistics detections !! class_name) ↔
         ∃ box, box ∈ default [] detections ∧ Config.get_class_name (cls box) = class_name)
  ∧ (∀ total frame_stats : gmap string Z,
       positive_table total → positive_table frame_stats →
       positive_table (_merge_statistics total frame_stats)
       ∧ (∀ (class_name : string) (count : Z),
            total !! class_name = Some count →
            ∃ count', _merge_statistics total frame_stats !! class_name = Some count'
                      ∧ count ≤ count')
       ∧ (∀ class_name : string,
            is_Some (_merge_statistics total frame_stats !! class_name) ↔
            is_Some (total !! class_name) ∨ is_Some (frame_stats !! class_name)))
  ∧ (∀ frames : list (option (list Box)),
       positive_table (foldl _merge_statistics ∅ (_extract_statistics <$> frames))
       ∧ ∀ class_name : string,
           is_Some (foldl _merge_statistics ∅ (_extract_statistics <$> frames) !! class_name) ↔
           ∃ detections box,
             detections ∈ frames ∧ box ∈ default [] detections
             ∧ Config.get_class_name (cls box) = class_name).
Proof.
  split; [|split].
  - intros detections. split; [apply extract_statistics_positive|].
    apply extract_statistics_present.
  - intros total frame_stats Htotal Hframe. split; [by apply merge_statistics_positive|].
    split; [intros ? ?; by apply merge_statistics_grows|apply merge_statistics_present].
  - intros frames. split; [apply cumulative_positive|apply cumulative_present].
Qed.

Lemma statistics_tables_positive_witness :
  positive_table
    (_merge_statistics (_extract_statistics (Some [mkBox 1 (1 # 2)]))
       (_extract_statistics (Some [mkBox 0 (1 # 2); mkBox 1 (1 # 2)]))).
Proof.
  destruct statistics_tables_positive as (Hextract & Hmerge & _).
  apply Hmerge; apply Hextract.
Defined.

(** ** Progress reports *)

Lemma progress_value_mono (a b total : Z) :
  0 < total → a ≤ b → (progress_value a total <= progress_value b total)%Q.
Proof.
  intros Htot Hab. unfold progress_value, Qdiv. apply Qmult_le_compat_r.
  - by rewrite <- Zle_Qle.
  - apply Qinv_le_0_compat. change 0%Q with (inject_Z 0). rewrite <- Zle_Qle. lia.
Qed.

Lemma progress_value_le_1 (a total : Z) :
  0 < total → a ≤ total → (progress_value a total <= 1)%Q.
Proof.
  intros Htot Ha. unfold progress_value. apply Qle_shift_div_r.
  - change 0%Q with (inject_Z 0). by rewrite <- Zlt_Qlt.
  - by rewrite Qmult_1_l, <- Zle_Qle.
Qed.

Lemma progress_value_full (total : Z) :
  total ≠ 0 → (progress_value total total == 1)%Q.
Proof.
  intros Htot. unfold progress_value. apply Qmult_inv_r.
  unfold Qeq. simpl. lia.
Qed.

Lemma progress_seq_lookup (total : Z) (n i : nat) (x : Q) :
  progress_seq total n !! i = Some x →
  x = progress_value (Z.of_nat (1 + i)) total ∧ (i < n)%nat.
Proof.
  unfold progress_seq. rewrite list_lookup_fmap.
  destruct (seq 1 n !! i) as [k|] eqn:Hk; [|done].
  apply lookup_seq in Hk as [-> Hlt]. by intros [= <-].
Qed.

Lemma progress_seq_nondecreasing (total : Z) (n : nat) :
  0 < total → nondecreasing (progress_seq total n).
Proof.
  intros Htot i j x y Hij [-> _]%progress_seq_lookup [-> _]%progress_seq_lookup.
  apply progress_value_mono; lia.
Qed.

Lemma progress_seq_le_1 (total : Z) (n : nat) :
  0 < total → Z.of_nat n ≤ total → Forall (λ v, (v <= 1)%Q) (progress_seq total n).
Proof.
  intros Htot Hn. apply Forall_lookup. intros i x [-> Hi]%progress_seq_lookup.
  apply progress_value_le_1; lia.
Qed.

Lemma progress_seq_last (total : Z) (n : nat) :
  last (progress_seq total (S n)) = Some (progress_value (Z.of_nat (S n)) total).
Proof.
  unfold progress_seq. rewrite seq_S, fmap_app. simpl. by rewrite last_snoc.
Qed.

Lemma progress_values_calls (total frame_count : Z) (n : nat) :
  progress_values (progress_calls total frame_count n) =
  (λ i : nat, progress_value (frame_count + Z.of_nat i) total) <$> seq 1 n.
Proof.
  revert frame_count. induction n as [|n IH]; intros frame_count; [done|].
  cbn [progress_calls seq fmap list_fmap]. unfold progress_values in *. cbn [omap list_omap].
  rewrite IH. change (Z.of_nat 1) with 1.
  rewrite <- (fmap_S_seq 1), <- list_fmap_compose.
  apply (f_equal (cons _)), list_fmap_ext.
  intros i k _. simpl. f_equal. lia.
Qed.

Lemma progress_values_app (calls calls' : list ui_event) :
  progress_values (calls ++ calls') = progress_values calls ++ progress_values calls'.
Proof. apply omap_app. Qed.

Lemma progress_values_processed {Frame : Type} (self : BaseDetector Frame) (total : Z)
    (w : World Frame) :
  progress_values (ui (processed self total w)) =
  progress_values (ui w) ++ progress_seq total (length (readable w)).
Proof.
  unfold processed. cbn [ui]. rewrite !progress_values_app, progress_values_calls.
  simpl. by rewrite app_nil_r.
Qed.

Example scenario_b_progress :
  progress_values
    (ui (_process_frames (mkDetector (Stub.model Stub.cars_then_nothing) (1 # 2) (Some [])) 10
           (mkWorld ∅ ∅ (mkCapture true (mkVideo 25 4 4 10 (seq 0 10)))
              (mkWriter "/tmp/out.avi" 25 (4, 4) []) [])).2)
  = progress_seq 10 10.
Proof. vm_compute. reflexivity. Qed.

(** C4. With a declared frame count of 0, [_update_progress] raises
    [ZeroDivisionError] whatever the number of frames processed, and so
    does [_process_frames] on any capture that holds a frame: the progress
    step is not total at [total = 0]. *)
Theorem update_progress_zero_total_raises {Frame : Type} (self : BaseDetector Frame) :
  (∀ (current : Z) (w : World Frame),
     _update_progress current 0 w = (Raise ZeroDivisionError, w))
  ∧ (∀ (fs : gmap string (list Byte.byte)) (denied : gset string)
       (rate wd ht : Z) (frame : Frame) (rest : list Frame)
       (o : VideoWriter Frame) (u : list ui_event),
       (_process_frames self 0
          (mkWorld fs denied (mkCapture true (mkVideo rate wd ht 0 (frame :: rest))) o u)).1
       = Raise ZeroDivisionError).
Proof.
  split; [apply update_progress_zero|].
  intros fs denied rate wd ht frame rest o u.
  by rewrite (process_frames_zero self frame rest).
Qed.

Lemma progress_values_aborted {Frame : Type} (self : BaseDetector Frame) (total : Z)
    (m : nat) (w : World Frame) :
  progress_values (ui (aborted self total m w)) =
  progress_values (ui w) ++ progress_seq total m.
Proof.
  unfold aborted. cbn [ui]. rewrite !progress_values_app, progress_values_calls.
  reflexivity.
Qed.

(** Where the declared frame count T covers the K frames read,
    [_process_frames] returns and the progress values it shows are 1/T,
    2/T, ..., K/T, which never go down and never exceed 1; when T = K they
    are as the specification wants them, ending at 1. *)
Lemma progress_in_declared_range {Frame : Type} (self : BaseDetector Frame)
    (total : Z) (w : World Frame) :
  0 < total →
  Z.of_nat (length (readable w)) ≤ total →
  ∃ (stats : gmap string Z) (w' : World Frame),
    _process_frames self total w = (OK stats, w')
    ∧ progress_values (ui w') =
        progress_values (ui w) ++ progress_seq total (length (readable w))
    ∧ nondecreasing (progress_seq total (length (readable w)))
    ∧ Forall (λ v, (v <= 1)%Q) (progress_seq total (length (readable w)))
    ∧ (total = Z.of_nat (length (readable w)) →
       progress_as_claimed (progress_seq total (length (readable w)))).
Proof.
  intros Htotal Hcover. eexists _, _. split; [apply process_frames_in_range; by right|].
  split; [apply progress_values_processed|].
  split; [by apply progress_seq_nondecreasing|].
  split; [by apply progress_seq_le_1|].
  intros Heq. split; [by apply progress_seq_nondecreasing|].
  split; [apply progress_seq_le_1; lia|].
  destruct (length (readable w)) as [|n] eqn:Hn; [lia|].
  eexists. split; [apply progress_seq_last|].
  rewrite Heq. apply progress_value_full. lia.
Qed.

(** C5. When the container declares fewer frames than can be read (a
    positive count T below the number K of frames; T below 999999999,
    where the rounding slack of the widget ends), the value of the report
    after frame T + 1 is above 1 and reaches the widget as it is: the
    widget raises and [_process_frames] is aborted. The values shown are
    1/T, ..., T/T and no more; frame T + 1 has been written, and the
    frames after it are never read. *)
Theorem progress_above_declared_count_raises {Frame : Type} (self : BaseDetector Frame)
    (total : Z) (w : World Frame) :
  0 < total < 999999999 →
  total < Z.of_nat (length (readable w)) →
  (_process_frames self total w).1 = Raise StreamlitValueOutOfRangeError
  ∧ progress_values (ui (_process_frames self total w).2)
    = progress_values (ui w) ++ progress_seq total (Z.to_nat total)
  ∧ out_frames (out (_process_frames self total w).2)
    = out_frames (out w) ++ (annotated_of self <$> take (S (Z.to_nat total)) (readable w))
  ∧ readable (_process_frames self total w).2 = drop (S (Z.to_nat total)) (readable w).
Proof.
  intros Htotal Hmore.
  rewrite (process_frames_raises self total (Z.to_nat total) StreamlitValueOutOfRangeError).
  - cbn [fst snd]. split; [done|]. split; [apply progress_values_aborted|]. done.
  - lia.
  - intros k Hk. apply report_error_in_range; lia.
  - apply report_error_above; lia.
Qed.

Lemma progress_above_declared_count_raises_witness :
  (_process_frames Stub.detector 1
     (mkWorld ∅ ∅ (mkCapture true (mkVideo 25 4 4 1 [0; 1; 2]%nat))
        (mkWriter "/tmp/out.avi" 25 (4, 4) []) [])).1
  = Raise StreamlitValueOutOfRangeError
  ∧ progress_values
      (ui (_process_frames Stub.detector 1
             (mkWorld ∅ ∅ (mkCapture true (mkVideo 25 4 4 1 [0; 1; 2]%nat))
                (mkWriter "/tmp/out.avi" 25 (4, 4) []) [])).2)
    = [progress_value 1 1]
  ∧ out_frames
      (out (_process_frames Stub.detector 1
              (mkWorld ∅ ∅ (mkCapture true (mkVideo 25 4 4 1 [0; 1; 2]%nat))
                 (mkWriter "/tmp/out.avi" 25 (4, 4) []) [])).2)
    = [1000; 1001]%nat
  ∧ readable
      (_process_frames Stub.detector 1
         (mkWorld ∅ ∅ (mkCapture true (mkVideo 25 4 4 1 [0; 1; 2]%nat))
            (mkWriter "/tmp/out.avi" 25 (4, 4) []) [])).2
    = [2%nat].
Proof.
  apply (progress_above_declared_count_raises Stub.detector 1
           (mkWorld ∅ ∅ (mkCapture true (mkVideo 25 4 4 1 [0; 1; 2]%nat))
              (mkWriter "/tmp/out.avi" 25 (4, 4) []) [])).
  - lia.
  - simpl. lia.
Defined.

(** ** Frame order *)

(** C7. On a container that declares 0 frames and holds at least one, the
    loop does not run until the frames are exhausted: the first frame is
    read, its annotated copy written, and the progress report raises; the
    frames after the first stay in the capture and are never written. *)
Theorem drain_loop_stops_at_zero_total {Frame : Type} (self : BaseDetector Frame) :
  ∀ (fs : gmap string (list Byte.byte)) (denied : gset string)
    (rate wd ht : Z) (frame : Frame) (rest : list Frame)
    (o : VideoWriter Frame) (u : list ui_event),
    (_process_frames self 0
       (mkWorld fs denied (mkCapture true (mkVideo rate wd ht 0 (frame :: rest))) o u)).1
    = Raise ZeroDivisionError
    ∧ out_frames
        (out (_process_frames self 0
                (mkWorld fs denied (mkCapture true (mkVideo rate wd ht 0 (frame :: rest))) o u)).2)
      = out_frames o ++ [annotated_of self frame]
    ∧ readable
        (_process_frames self 0
           (mkWorld fs denied (mkCapture true (mkVideo rate wd ht 0 (frame :: rest))) o u)).2
      = rest.
Proof.
  intros fs denied rate wd ht frame rest o u.
  by rewrite (process_frames_zero self frame rest).
Qed.

Example two_frames_declared_zero :
  (_process_frames Stub.detector 0
     (mkWorld ∅ ∅ (mkCapture true (mkVideo 25 4 4 0 [0; 1]%nat))
        (mkWriter "/tmp/out.avi" 25 (4, 4) []) [])).1 = Raise ZeroDivisionError
  ∧ out_frames
      (out (_process_frames Stub.detector 0
              (mkWorld ∅ ∅ (mkCapture true (mkVideo 25 4 4 0 [0; 1]%nat))
                 (mkWriter "/tmp/out.avi" 25 (4, 4) []) [])).2) = [1000%nat].
Proof. vm_compute. split; reflexivity. Qed.

(** Whatever the declared frame count, the frames written are the
    annotated copies of the first frames of the capture, in the order
    read, and the frames after them are left in the capture: none is
    dropped, repeated or moved. When the declared count covers the frames
    (it is positive and not below their number, or there is no frame), the
    loop runs until the capture has no frame left and all of them are
    written. *)
Theorem frames_written_in_order {Frame : Type} (self : BaseDetector Frame)
    (total : Z) (w : World Frame) :
  (∃ n : nat,
     out_frames (out (_process_frames self total w).2)
     = out_frames (out w) ++ (annotated_of self <$> take n (readable w))
     ∧ readable (_process_frames self total w).2 = drop n (readable w))
  ∧ (readable w = [] ∨ (0 < total ∧ Z.of_nat (length (readable w)) ≤ total) →
     ∃ (stats : gmap string Z) (w' : World Frame),
       _process_frames self total w = (OK stats, w')
       ∧ readable w' = []
       ∧ out_frames (out w') = out_frames (out w) ++ (annotated_of self <$> readable w)
       ∧ ∀ (i : nat) (frame : Frame),
           readable w !! i = Some frame →
           out_frames (out w') !! (length (out_frames (out w)) + i)%nat
           = Some (annotated_of self frame)).
Proof.
  assert (readable (processed self total w) = []) as Hdrained.
  { unfold processed, readable. cbn [cap].
    by destruct (cap_opened (cap w)) eqn:Hop; simpl; [|rewrite Hop]. }
  split.
  - destruct (process_frames_cases self total w) as [[_ ->]|(m & e & _ & _ & _ & ->)].
    + exists (length (readable w)). cbn [snd]. rewrite Hdrained.
      by rewrite firstn_all, drop_all.
    + by exists (S m).
  - intros Hcover. eexists _, _. split; [by apply process_frames_in_range|].
    split; [done|]. unfold processed. cbn [out]. split; [done|].
    intros i frame Hi. unfold writer_after. cbn [out_frames].
    rewrite lookup_app_r by lia. replace (_ + i - _)%nat with i by lia.
    by rewrite list_lookup_fmap, Hi.
Qed.

Lemma frames_written_in_order_witness :
  ∃ (stats : gmap string Z) (w' : World nat),
    _process_frames Stub.detector 7 Stub.capturing = (OK stats, w')
    ∧ out_frames (out w') = [1000; 1001]%nat.
Proof.
  destruct (proj2 (frames_written_in_order Stub.detector 7 Stub.capturing)) as
    (stats & w' & Hrun & _ & Hout & _); [right; simpl; lia|].
  exists stats, w'. split; [exact Hrun|]. rewrite Hout. reflexivity.
Defined.

(** ** Transcoding *)

Lemma stub_tmpname_fresh : ∀ (existing : gset string) (suffix : string),
  Stub.tmpname existing suffix ∉ existing.
Proof.
  intros existing suffix. unfold Stub.tmpname.
  destruct (List.find _ _) as [path|] eqn:Hfind; [|apply is_fresh].
  apply find_some in Hfind as [_ Hfresh]. by apply bool_decide_eq_true in Hfresh.
Qed.

Lemma convert_to_h264_result {Frame : Type} (E : Env Frame) (input_path : string)
    (data : list Byte.byte) (w : World Frame) :
  tmpname_fresh E →
  files w !! input_path = Some data →
  _convert_to_h264 E input_path w =
  (OK (tmpname E (dom (files w)) ".mp4"),
   mkWorld (<[tmpname E (dom (files w)) ".mp4" := delivered E data]> (files w))
     (unlink_denied w) (cap w) (out w) (ui w)).
Proof.
  intros Hfresh Hin.
  set (output := tmpname E (dom (files w)) ".mp4").
  assert (input_path ≠ output) as Hne.
  { intros ->. apply (Hfresh (dom (files w)) ".mp4"). apply elem_of_dom. by eexists. }
  unfold _convert_to_h264, NamedTemporaryFile, subprocess_run_ffmpeg, shutil_copy, delivered.
  destruct w as [fs den c o u]. simpl in *. fold output.
  destruct (ffmpeg E) as [transcode|].
  - unfold bind, try_except, raise, set_files, bind, get, put, ret. simpl.
    fold output. rewrite lookup_insert_ne by done. rewrite Hin.
    destruct (transcode data) as [[|] written]; simpl.
    + by rewrite insert_insert_eq.
    + rewrite !lookup_insert_ne by done. rewrite Hin.
      rewrite bool_decide_eq_false_2 by done. by rewrite !insert_insert_eq.
  - unfold bind, try_except, raise, set_files, bind, get, put, ret. simpl.
    fold output. rewrite lookup_insert_ne by done. rewrite Hin.
    rewrite bool_decide_eq_false_2 by done. by rewrite insert_insert_eq.
Qed.

(** C6. When the transcoder is absent, or runs on the intermediate file
    and exits with a failure status (whatever it left at the output path),
    [_convert_to_h264] does not raise: it returns the path of a new file
    whose content is the content of the intermediate file, byte for byte,
    and the intermediate file is unchanged. *)
Theorem transcode_failure_falls_back {Frame : Type} (E : Env Frame) (input_path : string)
    (data : list Byte.byte) (w : World Frame) :
  tmpname_fresh E →
  files w !! input_path = Some data →
  (ffmpeg E = None
   ∨ ∃ transcode, ffmpeg E = Some transcode ∧ (transcode data).1 = false) →
  ∃ (output_path : string) (w' : World Frame),
    _convert_to_h264 E input_path w = (OK output_path, w')
    ∧ files w !! output_path = None
    ∧ files w' !! output_path = Some data
    ∧ files w' !! input_path = Some data.
Proof.
  intros Hfresh Hin Hfail.
  assert (delivered E data = data) as Hdata.
  { unfold delivered. destruct Hfail as [->|(transcode & -> & ->)]; done. }
  eexists _, _. split; [by apply convert_to_h264_result|]. cbn [files].
  assert (files w !! tmpname E (dom (files w)) ".mp4" = None) as Hnew.
  { apply not_elem_of_dom, Hfresh. }
  split; [done|]. rewrite Hdata. split; [apply lookup_insert_eq|].
  rewrite lookup_insert_ne; [done|]. intros Heq. rewrite Heq in Hnew. congruence.
Qed.

Lemma transcode_failure_falls_back_witness :
  ∃ (output_path : string) (w' : World nat),
    _convert_to_h264 Stub.env_failing_ffmpeg "/tmp/raw.avi" Stub.with_raw_avi
    = (OK output_path, w')
    ∧ files Stub.with_raw_avi !! output_path = None
    ∧ files w' !! output_path = Some (Stub.two_frames Byte.x02)
    ∧ files w' !! "/tmp/raw.avi" = Some (Stub.two_frames Byte.x02).
Proof.
  apply (transcode_failure_falls_back Stub.env_failing_ffmpeg).
  - exact stub_tmpname_fresh.
  - vm_compute; reflexivity.
  - right. eexists. split; [reflexivity|vm_compute; reflexivity].
Defined.

Example transcode_absent :
  (_convert_to_h264 Stub.env_no_ffmpeg "/tmp/raw.avi" Stub.with_raw_avi).1
  = OK "/tmp/tmp0.mp4"
  ∧ files (_convert_to_h264 Stub.env_no_ffmpeg "/tmp/raw.avi" Stub.with_raw_avi).2
      !! "/tmp/tmp0.mp4"
    = Some (Stub.two_frames Byte.x02).
Proof. vm_compute. split; reflexivity. Qed.

Example transcode_success :
  files (_convert_to_h264 Stub.env_ffmpeg "/tmp/raw.avi" Stub.with_raw_avi).2
    !! "/tmp/tmp0.mp4"
  = Some (Byte.xff :: Stub.two_frames Byte.x02).
Proof. vm_compute. reflexivity. Qed.

(** ** Cleanup of temporary files *)

Lemma cleanup_one_ok {Frame : Type} (file_path : string) (w : World Frame) :
  ∃ w' : World Frame, cleanup_one file_path w = (OK tt, w').
Proof.
  unfold cleanup_one, try_except, os_path_exists, os_unlink, set_files, raise, bind, get, put,
    ret. simpl.
  destruct (files w !! file_path) as [data|] eqn:Hfile; simpl; [|by eexists].
  destruct (bool_decide (file_path ∈ unlink_denied w)); simpl; rewrite Hfile; by eexists.
Qed.

Lemma cleanup_temp_files_ok {Frame : Type} (paths : list string) (w : World Frame) :
  ∃ w' : World Frame, _cleanup_temp_files paths w = (OK [], w').
Proof.
  revert w. induction paths as [|file_path rest IH]; intros w; simpl.
  - by eexists.
  - destruct (cleanup_one_ok file_path w) as [w1 H1].
    destruct (IH w1) as [w2 H2]. exists w2. by erewrite bind_OK.
Qed.

Section Pipeline.
Context {Frame : Type} (E : Env Frame) (self : BaseDetector Frame).
Hypothesis fresh_names : tmpname_fresh E.

Lemma VideoCapture_opens (video_path : string) (video : Video Frame) (w : World Frame) :
  files w !! video_path ≫= demux E = Some video →
  cv2_VideoCapture E video_path w =
  (OK tt, mkWorld (files w) (unlink_denied w) (mkCapture true video) (out w) (ui w)).
Proof.
  intros Hvideo. unfold cv2_VideoCapture, bind, get. simpl. by rewrite Hvideo.
Qed.

Lemma path_exists_true (path : string) (data : list Byte.byte) (w : World Frame) :
  files w !! path = Some data → os_path_exists path w = (OK true, w).
Proof. intros Hfile. unfold os_path_exists, bind, get, ret. simpl. by rewrite Hfile. Qed.

Lemma unlink_denied_raises (path : string) (data : list Byte.byte) (w : World Frame) :
  files w !! path = Some data → path ∈ unlink_denied w →
  os_unlink path w = (Raise PermissionError, w).
Proof.
  intros Hfile Hdenied. unfold os_unlink, bind, get. simpl. rewrite Hfile.
  by rewrite bool_decide_eq_true_2.
Qed.

Lemma unlink_deletes (path : string) (data : list Byte.byte) (w : World Frame) :
  files w !! path = Some data → path ∉ unlink_denied w →
  os_unlink path w =
  (OK tt, mkWorld (delete path (files w)) (unlink_denied w) (cap w) (out w) (ui w)).
Proof.
  intros Hfile Hdenied. unfold os_unlink, bind, get. simpl. rewrite Hfile.
  by rewrite bool_decide_eq_false_2.
Qed.

(** Run the next statement, which returns by computation or by a lemma. *)
Ltac step :=
  erewrite bind_OK; [|cbn; reflexivity];
  cbn [files unlink_denied cap out ui fps width height total_frames cap_video cap_opened].
Ltac step_by lem :=
  erewrite bind_OK; [|by apply lem]; cbn [files unlink_denied cap out ui].

(** What [detect] returns on a file that decodes, when the declared
    frame count covers the frames: it all hangs on the deletion of the
    intermediate file. *)
Lemma detect_result (video_path : string) (video : Video Frame) (w : World Frame) :
  files w !! video_path ≫= demux E = Some video →
  video_frames video = []
  ∨ (0 < video_frame_count video
     ∧ Z.of_nat (length (video_frames video)) ≤ video_frame_count video) →
  (detect E self video_path w).1 =
  if bool_decide (intermediate_path E w ∈ unlink_denied w) then Raise PermissionError
  else OK (mkVideoDetectionResult (final_path E w)
             (foldl _merge_statistics ∅ (stats_of self <$> video_frames video))).
Proof.
  intros Hvideo Hcount. unfold detect, final_path, intermediate_path.
  set (temp := tmpname E (dom (files w)) ".avi").
  step_by VideoCapture_opens. step. step. fold temp. step.
  erewrite bind_OK; [|apply process_frames_in_range; exact Hcount].
  unfold processed, readable, writer_after, capture_left.
  cbn [files unlink_denied cap out ui cap_opened cap_video out_path out_fps out_size
       out_frames video_frames].
  step. step.
  erewrite bind_OK; [|apply convert_to_h264_result; [done|apply lookup_insert_eq]].
  cbn [files unlink_denied cap out ui].
  rewrite insert_insert_eq, dom_insert_L.
  set (raw := mux E _ _ _). set (final := tmpname E _ ".mp4").
  assert (final ≠ temp) as Hne.
  { intros Heq. apply (fresh_names ({[temp]} ∪ dom (files w)) ".mp4").
    fold final. rewrite Heq. apply elem_of_union. left. by apply elem_of_singleton. }
  erewrite bind_OK;
    [|eapply path_exists_true; cbn [files]; by rewrite lookup_insert_ne, lookup_insert_eq].
  destruct (decide (temp ∈ unlink_denied w)) as [Hdenied|Hallowed].
  - rewrite bool_decide_eq_true_2 by done.
    erewrite bind_Raise; [done|].
    eapply unlink_denied_raises; [|done].
    cbn [files]. by rewrite lookup_insert_ne, lookup_insert_eq.
  - rewrite bool_decide_eq_false_2 by done.
    erewrite bind_OK; [done|].
    eapply unlink_deletes; [|done].
    cbn [files]. by rewrite lookup_insert_ne, lookup_insert_eq.
Qed.

(** C9. [_cleanup_temp_files] swallows every deletion failure: it returns
    for every list of paths in every world. The deletion of the
    intermediate file inside [detect] is not guarded: on a video that
    decodes and whose declared frame count covers its frames (it is
    positive and not below their number, or there is no frame), so that
    no progress report raises, [detect] returns its result when the
    intermediate file can be deleted and raises [PermissionError] when it
    cannot. *)
Theorem intermediate_unlink_failure_propagates (video_path : string) (video : Video Frame)
    (w : World Frame) :
  files w !! video_path ≫= demux E = Some video →
  video_frames video = []
  ∨ (0 < video_frame_count video
     ∧ Z.of_nat (length (video_frames video)) ≤ video_frame_count video) →
  (∀ (paths : list string) (w0 : World Frame),
     ∃ w' : World Frame, _cleanup_temp_files paths w0 = (OK [], w'))
  ∧ (intermediate_path E w ∉ unlink_denied w →
     (detect E self video_path w).1 =
     OK (mkVideoDetectionResult (final_path E w)
           (foldl _merge_statistics ∅ (stats_of self <$> video_frames video))))
  ∧ (intermediate_path E w ∈ unlink_denied w →
     (detect E self video_path w).1 = Raise PermissionError).
Proof.
  intros Hvideo Hcount. split; [apply cleanup_temp_files_ok|].
  rewrite (detect_result video_path video w Hvideo Hcount). split; intros Hdenied.
  - by rewrite bool_decide_eq_false_2.
  - by rewrite bool_decide_eq_true_2.
Qed.

End Pipeline.

Lemma intermediate_unlink_failure_propagates_witness :
  (detect Stub.env_ffmpeg Stub.detector "/tmp/tmp0.mp4"
     (initial_world (<["/tmp/tmp0.mp4" := Stub.two_frames Byte.x02]> ∅) {["/tmp/tmp0.avi"]})).1
  = Raise PermissionError.
Proof.
  apply (intermediate_unlink_failure_propagates Stub.env_ffmpeg Stub.detector
           stub_tmpname_fresh "/tmp/tmp0.mp4" (mkVideo 25 4 4 2 [0; 1]%nat)).
  - vm_compute; reflexivity.
  - right. simpl. lia.
  - vm_compute. reflexivity.
Defined.

(** A whole request: it succeeds when every file can be deleted and when
    the uploaded file cannot ([_cleanup_temp_files] swallows that); when
    the intermediate file cannot be deleted the request is aborted and no
    temporary file is cleaned up. *)
Example request_aborted :
  fmap output_path <$$>
    render Stub.env_ffmpeg Stub.detector (Some (Stub.two_frames Byte.x02)) true
      (Stub.empty_disk ∅)
  = OK (Some "/tmp/tmp1.mp4")
  ∧ fmap output_path <$$>
      render Stub.env_ffmpeg Stub.detector (Some (Stub.two_frames Byte.x02)) true
        (Stub.empty_disk {["/tmp/tmp0.mp4"]})
    = OK (Some "/tmp/tmp1.mp4")
  ∧ fmap output_path <$$>
      render Stub.env_ffmpeg Stub.detector (Some (Stub.two_frames Byte.x02)) true
        (Stub.empty_disk {["/tmp/tmp0.avi"]})
    = Raise PermissionError
  ∧ (λ path,
       bool_decide
         (is_Some
            (files (render Stub.env_ffmpeg Stub.detector (Some (Stub.two_frames Byte.x02))
                      true (Stub.empty_disk {["/tmp/tmp0.avi"]})).2 !! path)))
      <$> ["/tmp/tmp0.mp4"; "/tmp/tmp0.avi"; "/tmp/tmp1.mp4"]
    = [true; true; true].
Proof. repeat split; vm_compute; reflexivity. Qed.

(** ** The model cache *)

Lemma load_model_hit (model_path : string) (model : ModelService.Model)
    (s : ModelService.State) :
  ModelService.cache s !! model_path = Some model →
  ModelService.load_model model_path s = (OK model, s).
Proof.
  intros Hhit. unfold ModelService.load_model, ModelService.cache_resource, bind, get.
  by rewrite Hhit.
Qed.

Lemma load_model_miss (model_path : string) (s : ModelService.State) :
  ModelService.cache s !! model_path = None →
  ModelService.load_model model_path s =
  if bool_decide (model_path ∈ ModelService.model_files s) then
    let device := if ModelService.cuda_is_available s then "cuda" else "cpu" in
    let model := ModelService.mkModel (ModelService.next_handle s) model_path device in
    (OK model,
     ModelService.mkState (ModelService.cuda_is_available s) (ModelService.model_files s)
       (ModelService.broken_files s)
       (<[model_path := model]> (ModelService.cache s))
       (ModelService.events s
        ++ [ModelService.Deserialize model_path;
            ModelService.BindDevice (ModelService.next_handle s) device])
       (S (ModelService.next_handle s)))
  else (Raise (default FileNotFoundError (ModelService.broken_files s !! model_path)), s).
Proof.
  intros Hmiss.
  unfold ModelService.load_model, ModelService.cache_resource, ModelService.load_model_body,
    ModelService.get_device, ModelService.YOLO, ModelService.to, bind, get, put, ret, raise.
  rewrite Hmiss. simpl. destruct (bool_decide _); simpl.
  - by rewrite <- app_assoc.
  - by destruct (ModelService.broken_files s !! model_path).
Qed.

Lemma load_model_stores (model_path : string) (model : ModelService.Model)
    (s s1 : ModelService.State) :
  ModelService.load_model model_path s = (OK model, s1) →
  ModelService.cache s1 !! model_path = Some model.
Proof.
  destruct (ModelService.cache s !! model_path) as [cached|] eqn:Hc.
  - rewrite (load_model_hit _ _ _ Hc). by intros [= <- <-].
  - rewrite (load_model_miss _ _ Hc). destruct (bool_decide _); [|done].
    intros [= <- <-]. simpl. apply lookup_insert_eq.
Qed.

Lemma load_model_keeps (model_path other : string) (model : ModelService.Model)
    (s : ModelService.State) :
  ModelService.cache s !! model_path = Some model →
  ModelService.cache (ModelService.load_model other s).2 !! model_path = Some model.
Proof.
  intros Hhit. destruct (ModelService.cache s !! other) as [cached|] eqn:Hc.
  - by rewrite (load_model_hit _ _ _ Hc).
  - rewrite (load_model_miss _ _ Hc). destruct (bool_decide _); [|done]. simpl.
    rewrite lookup_insert_ne; [done|]. intros ->. congruence.
Qed.

Lemma load_all_keeps (paths : list string) (model_path : string)
    (model : ModelService.Model) (s : ModelService.State) :
  ModelService.cache s !! model_path = Some model →
  ModelService.cache (ModelService.load_all paths s) !! model_path = Some model.
Proof.
  revert s. induction paths as [|other rest IH]; intros s Hhit; [done|].
  simpl. apply IH. by apply load_model_keeps.
Qed.

Example first_load :
  ModelService.load_model "models/best.pt" Stub.fresh_process
  = (OK (ModelService.mkModel 0 "models/best.pt" "cpu"),
     ModelService.mkState false {["models/best.pt"]} {["models/notes.pt" := TypeError]}
       (<["models/best.pt" := ModelService.mkModel 0 "models/best.pt" "cpu"]> ∅)
       [ModelService.Deserialize "models/best.pt"; ModelService.BindDevice 0 "cpu"] 1).
Proof. by rewrite load_model_miss. Qed.

(** C8. When [load_model] has returned a model for a path, calling it
    again with that path, right away or after any number of calls for any
    paths, returns the same model object and leaves the state as it is:
    nothing is deserialized and nothing bound to a device again. *)
Theorem load_model_cached (model_path : string) (model : ModelService.Model)
    (s s1 : ModelService.State) :
  ModelService.load_model model_path s = (OK model, s1) →
  ModelService.load_model model_path s1 = (OK model, s1)
  ∧ ∀ paths : list string,
      ModelService.load_model model_path (ModelService.load_all paths s1)
      = (OK model, ModelService.load_all paths s1).
Proof.
  intros Hstored%load_model_stores. split.
  - by apply load_model_hit.
  - intros paths. by apply load_model_hit, load_all_keeps.
Qed.

Lemma load_model_cached_witness :
  ModelService.load_model "models/best.pt"
    (ModelService.load_model "models/best.pt" Stub.fresh_process).2
  = (OK (ModelService.mkModel 0 "models/best.pt" "cpu"),
     (ModelService.load_model "models/best.pt" Stub.fresh_process).2).
Proof.
  apply (load_model_cached "models/best.pt" (ModelService.mkModel 0 "models/best.pt" "cpu")
           Stub.fresh_process).
  by rewrite load_model_miss.
Defined.

(** * Further properties *)

(** ** Class names and class identifiers *)

Lemma get_class_name_registered (class_id : Z) :
  is_Some (Config.DETECTION_CLASSES !! class_id) ↔ class_id = 0 ∨ class_id = 1.
Proof.
  split.
  - intros [c Hc]. apply registry_lookup in Hc as [[-> _]|[-> _]]; auto.
  - intros [-> | ->]; by eexists.
Qed.

Lemma get_class_name_inj (a b : Z) :
  Config.get_class_name a = Config.get_class_name b → a = b.
Proof.
  unfold Config.get_class_name.
  destruct (Config.DETECTION_CLASSES !! a) as [ca|] eqn:Ha;
    destruct (Config.DETECTION_CLASSES !! b) as [cb|] eqn:Hb.
  - apply registry_lookup in Ha as [[-> ->]|[-> ->]];
      apply registry_lookup in Hb as [[-> ->]|[-> ->]]; done.
  - intros Heq. by apply (placeholder_not_registered b a ca) in Heq.
  - intros Heq. symmetry in Heq. by apply (placeholder_not_registered a b cb) in Heq.
  - unfold Config.placeholder_name. simpl. intros [= Heq]. by apply (inj pretty).
Qed.

Lemma boxes_named_class (class_id : Z) (detections : list Box) :
  boxes_named (Config.get_class_name class_id) detections = boxes_of_class class_id detections.
Proof.
  unfold boxes_named, boxes_of_class. do 2 f_equal. apply list_filter_iff.
  intros box. split; [apply get_class_name_inj|by intros ->].
Qed.

(** Two class identifiers never share a display name, registered or not;
    so the count a table holds under the name of an identifier is the
    number of boxes of exactly that identifier. *)
Theorem statistics_count_per_class_id :
  (∀ a b : Z, Config.get_class_name a = Config.get_class_name b → a = b)
  ∧ (∀ (detections : option (list Box)) (class_id : Z),
       dict_get (_extract_statistics detections) (Config.get_class_name class_id) 0
       = boxes_of_class class_id (default [] detections)).
Proof.
  split; [exact get_class_name_inj|].
  intros detections class_id. by rewrite extract_statistics_get, boxes_named_class.
Qed.

Lemma statistics_count_per_class_id_witness :
  Config.get_class_name 7 = "Class 7" ∧ 7 = 7.
Proof.
  split; [vm_compute; reflexivity|].
  apply (proj1 statistics_count_per_class_id 7 7). reflexivity.
Defined.

(** ** No detection is lost *)

Lemma total_count_empty : total_count ∅ = 0.
Proof. unfold total_count. by rewrite map_fold_empty. Qed.

Lemma total_count_insert_new (table : gmap string Z) (class_name : string) (count : Z) :
  table !! class_name = None →
  total_count (<[class_name := count]> table) = count + total_count table.
Proof.
  intros Hnew. unfold total_count. rewrite map_fold_insert_L; [done| |done].
  intros. lia.
Qed.

Lemma total_count_insert (table : gmap string Z) (class_name : string) (count : Z) :
  total_count (<[class_name := count]> table)
  = count + total_count table - dict_get table class_name 0.
Proof.
  unfold dict_get. destruct (table !! class_name) as [old|] eqn:Hold; simpl.
  - rewrite <- (insert_delete_eq table).
    rewrite <- (insert_id table class_name old Hold) at 2.
    rewrite <- (insert_delete_eq table class_name old).
    rewrite !total_count_insert_new by apply lookup_delete_eq. lia.
  - rewrite total_count_insert_new by done. lia.
Qed.

Lemma total_count_count_box (stats : gmap string Z) (box : Box) :
  total_count (count_box stats box) = total_count stats + 1.
Proof. unfold count_box. rewrite total_count_insert. lia. Qed.

Lemma total_count_foldl_count_box (detections : list Box) (stats : gmap string Z) :
  total_count (foldl count_box stats detections)
  = total_count stats + Z.of_nat (length detections).
Proof.
  revert stats. induction detections as [|b l IH]; intros stats; simpl; [lia|].
  rewrite IH, total_count_count_box. lia.
Qed.

Lemma total_count_merge (total frame_stats : gmap string Z) :
  total_count (_merge_statistics total frame_stats)
  = total_count total + total_count frame_stats.
Proof.
  unfold _merge_statistics.
  apply (map_fold_weak_ind
    (λ (r : gmap string Z) (m : gmap string Z),
       total_count r = total_count total + total_count m)).
  - rewrite total_count_empty. lia.
  - intros i x m r Hi IH. rewrite total_count_insert, total_count_insert_new by done. lia.
Qed.

(** The counts of an extracted table add up to the number of boxes, the
    counts of a merged table to the sum of the two tables, and the counts
    of the cumulative table of a list of frames to the number of boxes of
    all the frames: every detection is counted once. *)
Theorem every_detection_counted_once :
  (∀ detections : option (list Box),
     total_count (_extract_statistics detections)
     = Z.of_nat (length (default [] detections)))
  ∧ (∀ total frame_stats : gmap string Z,
       total_count (_merge_statistics total frame_stats)
       = total_count total + total_count frame_stats)
  ∧ (∀ frames : list (option (list Box)),
       total_count (foldl _merge_statistics ∅ (_extract_statistics <$> frames))
       = Z.of_nat (length (concat (default [] <$> frames)))).
Proof.
  split; [|split].
  - intros detections.
    rewrite extract_statistics_foldl, total_count_foldl_count_box, total_count_empty. lia.
  - exact total_count_merge.
  - intros frames. induction frames as [|detections frames IH] using rev_ind.
    + simpl. by rewrite total_count_empty.
    + rewrite !fmap_app, foldl_app, concat_app, length_app. simpl.
      rewrite total_count_merge, IH, extract_statistics_foldl,
        total_count_foldl_count_box, total_count_empty, app_nil_r. lia.
Qed.

(** ** Merging is order-insensitive *)

Lemma merge_statistics_comm (a b : gmap string Z) :
  _merge_statistics a b = _merge_statistics b a.
Proof.
  apply map_eq. intros k. rewrite !merge_statistics_lookup. unfold dict_get.
  destruct (a !! k), (b !! k); simpl; f_equal; lia.
Qed.

Lemma merge_statistics_assoc (a b c : gmap string Z) :
  _merge_statistics (_merge_statistics a b) c = _merge_statistics a (_merge_statistics b c).
Proof.
  apply map_eq. intros k. rewrite !merge_statistics_lookup.
  rewrite merge_statistics_get. unfold dict_get.
  destruct (a !! k), (b !! k), (c !! k); simpl; f_equal; lia.
Qed.

Lemma merge_statistics_empty_r (a : gmap string Z) : _merge_statistics a ∅ = a.
Proof. apply map_eq. intros k. by rewrite merge_statistics_lookup, lookup_empty. Qed.

Lemma merge_statistics_empty_l (a : gmap string Z) : _merge_statistics ∅ a = a.
Proof. by rewrite merge_statistics_comm, merge_statistics_empty_r. Qed.

Lemma foldl_merge_statistics_Permutation (tables tables' : list (gmap string Z)) :
  tables ≡ₚ tables' →
  ∀ total, foldl _merge_statistics total tables = foldl _merge_statistics total tables'.
Proof.
  induction 1 as [|x l l' _ IH|x y l|l l' l'' _ IH1 _ IH2]; intros total; simpl.
  - done.
  - apply IH.
  - by rewrite !merge_statistics_assoc, (merge_statistics_comm y x).
  - by rewrite IH1.
Qed.

(** Tables under [_merge_statistics] form a commutative monoid with the
    empty table as unit, so the cumulative table does not depend on the
    order in which the per-frame tables are merged. *)
Theorem merge_statistics_order_insensitive :
  (∀ a b : gmap string Z, _merge_statistics a b = _merge_statistics b a)
  ∧ (∀ a b c : gmap string Z,
       _merge_statistics (_merge_statistics a b) c
       = _merge_statistics a (_merge_statistics b c))
  ∧ (∀ a : gmap string Z, _merge_statistics a ∅ = a ∧ _merge_statistics ∅ a = a)
  ∧ (∀ tables tables' : list (gmap string Z),
       tables ≡ₚ tables' →
       foldl _merge_statistics ∅ tables = foldl _merge_statistics ∅ tables').
Proof.
  split; [exact merge_statistics_comm|]. split; [exact merge_statistics_assoc|].
  split; [intros a; split; [apply merge_statistics_empty_r|apply merge_statistics_empty_l]|].
  intros tables tables' Hperm. by apply foldl_merge_statistics_Permutation.
Qed.

Lemma merge_statistics_order_insensitive_witness :
  foldl _merge_statistics ∅
    [_extract_statistics (Some [mkBox 0 (1 # 2)]); _extract_statistics (Some [mkBox 1 (1 # 2)])]
  = foldl _merge_statistics ∅
      [_extract_statistics (Some [mkBox 1 (1 # 2)]); _extract_statistics (Some [mkBox 0 (1 # 2)])].
Proof.
  apply merge_statistics_order_insensitive. apply Permutation_swap.
Defined.

(** ** What [_process_frames] can do *)

Lemma Exists_refused {A : Type} (f : A → bool) (l : list A) :
  Exists (λ v, f v = false) l ↔ ¬ Forall (λ v, f v = true) l.
Proof.
  induction l as [|x l IH].
  - split; [by intros ?%Exists_nil|intros []; constructor].
  - rewrite Exists_cons, Forall_cons, IH. destruct (f x); split.
    + intros [?|Hl] [_ Hall]; [done|by apply Hl].
    + intros Hnot. right. intros Hall. by apply Hnot.
    + intros _ [? _]. done.
    + intros _. by left.
Qed.

Lemma progress_seq_lookup_Some (total : Z) (n k : nat) :
  (1 ≤ k ≤ n)%nat →
  progress_seq total n !! (k - 1)%nat = Some (progress_value (Z.of_nat k) total).
Proof.
  intros Hk. unfold progress_seq. rewrite list_lookup_fmap, lookup_seq_lt by lia.
  simpl. do 3 f_equal. lia.
Qed.

(** For a count other than 0, no report raises exactly when the widget
    takes every value. *)
Lemma reports_accepted (total : Z) (n : nat) :
  total ≠ 0 →
  (∀ k : nat, (1 ≤ k ≤ n)%nat → report_error (Z.of_nat k) total = None)
  ↔ Forall (λ v, _check_float_between v 0 1 = true) (progress_seq total n).
Proof.
  intros Htot. rewrite Forall_lookup. split.
  - intros Hgo i v [-> Hi]%progress_seq_lookup.
    specialize (Hgo (1 + i)%nat ltac:(lia)). revert Hgo. unfold report_error.
    destruct (Z.eqb_spec total 0) as [|_]; [done|].
    by destruct (_check_float_between _ 0 1).
  - intros Hall k Hk. specialize (Hall _ _ (progress_seq_lookup_Some total n k Hk)).
    unfold report_error. destruct (Z.eqb_spec total 0) as [|_]; [done|]. by rewrite Hall.
Qed.




(** ** What [_convert_to_h264] leaves on disk *)

(** When the intermediate file exists, [_convert_to_h264] returns the path
    of a file that did not exist; that file holds the transcoder's output
    when the transcoder ran and exited with status 0 and a copy of the
    intermediate file otherwise; no other file is created, changed or
    removed. *)
Theorem transcode_creates_one_file {Frame : Type} (E : Env Frame) (input_path : string)
    (data : list Byte.byte) (w : World Frame) :
  tmpname_fresh E →
  files w !! input_path = Some data →
  ∃ (output_path : string) (w' : World Frame),
    _convert_to_h264 E input_path w = (OK output_path, w')
    ∧ files w !! output_path = None
    ∧ files w' = <[output_path := delivered E data]> (files w)
    ∧ (∀ transcode, ffmpeg E = Some transcode → (transcode data).1 = true →
       files w' !! output_path = Some (transcode data).2).
Proof.
  intros Hfresh Hin. eexists _, _. split; [by apply convert_to_h264_result|].
  cbn [files]. split; [apply not_elem_of_dom, Hfresh|]. split; [done|].
  intros transcode Hsome Hexit. rewrite lookup_insert_eq. unfold delivered.
  by rewrite Hsome, Hexit.
Qed.

Lemma transcode_creates_one_file_witness :
  ∃ (output_path : string) (w' : World nat),
    _convert_to_h264 Stub.env_ffmpeg "/tmp/raw.avi" Stub.with_raw_avi = (OK output_path, w')
    ∧ files w' !! output_path = Some (Byte.xff :: Stub.two_frames Byte.x02).
Proof.
  destruct (transcode_creates_one_file Stub.env_ffmpeg "/tmp/raw.avi"
              (Stub.two_frames Byte.x02) Stub.with_raw_avi)
    as (output_path & w' & Hrun & _ & _ & Hout).
  - exact stub_tmpname_fresh.
  - vm_compute; reflexivity.
  - exists output_path, w'. split; [exact Hrun|]. by apply Hout with (transcode := λ data, (true, Byte.xff :: data)).
Defined.

(** When the intermediate file does not exist, the fallback copy fails
    too: [_convert_to_h264] raises [FileNotFoundError], with or without a
    transcoder, and leaves the empty output file it created behind. *)
Theorem transcode_missing_input_raises {Frame : Type} (E : Env Frame) (input_path : string)
    (w : World Frame) :
  files w !! input_path = None →
  input_path ≠ tmpname E (dom (files w)) ".mp4" →
  (_convert_to_h264 E input_path w).1 = Raise FileNotFoundError
  ∧ files (_convert_to_h264 E input_path w).2
    = <[tmpname E (dom (files w)) ".mp4" := []]> (files w).
Proof.
  intros Hin Hne.
  unfold _convert_to_h264, NamedTemporaryFile, subprocess_run_ffmpeg, shutil_copy.
  destruct w as [fs den c o u]. simpl in *.
  destruct (ffmpeg E) as [transcode|];
    unfold bind, try_except, raise, set_files, bind, get, put, ret; simpl;
    rewrite !lookup_insert_ne by done; rewrite !Hin; simpl;
    rewrite ?lookup_insert_ne by done; rewrite ?Hin; done.
Qed.

Lemma transcode_missing_input_raises_witness :
  (_convert_to_h264 Stub.env_ffmpeg "/tmp/gone.avi" Stub.with_raw_avi).1
  = Raise FileNotFoundError.
Proof.
  apply (transcode_missing_input_raises Stub.env_ffmpeg "/tmp/gone.avi" Stub.with_raw_avi).
  - vm_compute; reflexivity.
  - vm_compute. discriminate.
Defined.

(** ** Uploads and cleanup *)

Section Requests.
Context {Frame : Type} (E : Env Frame) (self : BaseDetector Frame).
Hypothesis fresh_names : tmpname_fresh E.

Lemma save_uploaded_video_result (_temp_files : list string) (uploaded : list Byte.byte)
    (w : World Frame) :
  _save_uploaded_video E _temp_files uploaded w =
  (OK (tmpname E (dom (files w)) ".mp4", _temp_files ++ [tmpname E (dom (files w)) ".mp4"]),
   mkWorld (<[tmpname E (dom (files w)) ".mp4" := uploaded]> (files w))
     (unlink_denied w) (cap w) (out w) (ui w)).
Proof.
  unfold _save_uploaded_video, NamedTemporaryFile, set_files, bind, get, put, ret. simpl.
  by rewrite insert_insert_eq.
Qed.

Lemma save_uploaded_model_result (uploaded : list Byte.byte) (w : World Frame) :
  save_uploaded_model E uploaded w =
  (OK (tmpname E (dom (files w)) ".pt"),
   mkWorld (<[tmpname E (dom (files w)) ".pt" := uploaded]> (files w))
     (unlink_denied w) (cap w) (out w) (ui w)).
Proof.
  unfold save_uploaded_model, NamedTemporaryFile, set_files, bind, get, put, ret. simpl.
  by rewrite insert_insert_eq.
Qed.

(** An uploaded video or model is stored byte for byte under a path that
    did not exist, which is what the function returns (and, for a video,
    what it appends to the list of temporary files); every file that
    existed keeps its content. *)
Theorem upload_stored_verbatim (_temp_files : list string) (uploaded : list Byte.byte)
    (w : World Frame) :
  (∃ (tmp : string) (w' : World Frame),
     _save_uploaded_video E _temp_files uploaded w = (OK (tmp, _temp_files ++ [tmp]), w')
     ∧ files w !! tmp = None
     ∧ files w' !! tmp = Some uploaded
     ∧ ∀ path data, files w !! path = Some data → files w' !! path = Some data)
  ∧ (∃ (tmp : string) (w' : World Frame),
       save_uploaded_model E uploaded w = (OK tmp, w')
       ∧ files w !! tmp = None
       ∧ files w' !! tmp = Some uploaded
       ∧ ∀ path data, files w !! path = Some data → files w' !! path = Some data).
Proof.
  split; eexists _, _.
  - split; [apply save_uploaded_video_result|]. cbn [files].
    assert (files w !! tmpname E (dom (files w)) ".mp4" = None) as Hnew
      by apply not_elem_of_dom, fresh_names.
    split; [done|]. split; [apply lookup_insert_eq|].
    intros path data Hpath. rewrite lookup_insert_ne; [done|]. intros <-. congruence.
  - split; [apply save_uploaded_model_result|]. cbn [files].
    assert (files w !! tmpname E (dom (files w)) ".pt" = None) as Hnew
      by apply not_elem_of_dom, fresh_names.
    split; [done|]. split; [apply lookup_insert_eq|].
    intros path data Hpath. rewrite lookup_insert_ne; [done|]. intros <-. congruence.
Qed.

Lemma cleanup_one_result (file_path : string) (w : World Frame) :
  cleanup_one file_path w =
  (OK tt,
   mkWorld (if bool_decide (file_path ∈ unlink_denied w) then files w
            else delete file_path (files w))
     (unlink_denied w) (cap w) (out w) (ui w)).
Proof.
  unfold cleanup_one, try_except, os_path_exists, os_unlink, set_files, raise, bind, get, put,
    ret. simpl. destruct w as [fs den c o u]. simpl.
  destruct (fs !! file_path) as [data|] eqn:Hfile; simpl.
  - rewrite Hfile. by destruct (bool_decide (file_path ∈ den)).
  - rewrite delete_id by done. by destruct (bool_decide (file_path ∈ den)).
Qed.

Lemma cleanup_temp_files_result (paths : list string) (w : World Frame) :
  ∃ w' : World Frame,
    _cleanup_temp_files paths w = (OK [], w')
    ∧ unlink_denied w' = unlink_denied w ∧ cap w' = cap w ∧ out w' = out w ∧ ui w' = ui w
    ∧ ∀ path, files w' !! path =
        if bool_decide (path ∈ paths ∧ path ∉ unlink_denied w) then None
        else files w !! path.
Proof.
  revert w. induction paths as [|file_path rest IH]; intros w; cbn [_cleanup_temp_files].
  - eexists. split; [done|]. do 4 (split; [done|]). intros path.
    rewrite bool_decide_eq_false_2; [done|]. intros [Hin _]. inversion Hin.
  - erewrite bind_OK by apply cleanup_one_result.
    destruct (IH (mkWorld (if bool_decide (file_path ∈ unlink_denied w) then files w
                           else delete file_path (files w))
                    (unlink_denied w) (cap w) (out w) (ui w)))
      as (w' & Hrun & Hden & Hcap & Hout & Hui & Hfiles).
    exists w'. split; [done|]. cbn [files unlink_denied cap out ui] in *.
    do 4 (split; [done|]). intros path. rewrite Hfiles.
    destruct (decide (path ∈ unlink_denied w)) as [Hd|Hd].
    + rewrite (bool_decide_eq_false_2 (path ∈ rest ∧ path ∉ unlink_denied w)) by tauto.
      rewrite (bool_decide_eq_false_2 (path ∈ file_path :: rest ∧ path ∉ unlink_denied w))
        by tauto.
      case_bool_decide; [done|]. rewrite lookup_delete_ne; [done|]. by intros ->.
    + destruct (decide (path ∈ rest)) as [Hr|Hr].
      * rewrite (bool_decide_eq_true_2 (path ∈ rest ∧ path ∉ unlink_denied w)) by done.
        rewrite (bool_decide_eq_true_2 (path ∈ file_path :: rest ∧ path ∉ unlink_denied w));
          [done|]. split; [by right|done].
      * rewrite (bool_decide_eq_false_2 (path ∈ rest ∧ _)) by tauto.
        destruct (decide (path = file_path)) as [->|Hne].
        -- rewrite (bool_decide_eq_false_2 (file_path ∈ unlink_denied w)) by done.
           rewrite lookup_delete_eq. rewrite bool_decide_eq_true_2; [done|].
           split; [by left|done].
        -- rewrite (bool_decide_eq_false_2 (path ∈ file_path :: rest ∧ _)).
           ++ case_bool_decide; [done|]. by rewrite lookup_delete_ne.
           ++ intros [Hin _]. apply elem_of_cons in Hin as [?|?]; done.
Qed.

(** [_cleanup_temp_files] always returns with an empty list; afterwards
    a listed path that can be deleted does not exist, and every other
    path, undeletable or not listed, is as it was. *)
Theorem cleanup_removes_deletable_files (paths : list string) (w : World Frame) :
  ∃ w' : World Frame,
    _cleanup_temp_files paths w = (OK [], w')
    ∧ (∀ path, path ∈ paths → path ∉ unlink_denied w → files w' !! path = None)
    ∧ (∀ path, path ∉ paths ∨ path ∈ unlink_denied w → files w' !! path = files w !! path).
Proof.
  destruct (cleanup_temp_files_result paths w) as (w' & Hrun & _ & _ & _ & _ & Hfiles).
  exists w'. split; [done|]. split; intros path.
  - intros Hin Hd. rewrite Hfiles. by rewrite bool_decide_eq_true_2.
  - intros Hout. rewrite Hfiles. rewrite bool_decide_eq_false_2; [done|]. tauto.
Qed.

End Requests.

Lemma upload_stored_verbatim_witness :
  ∃ (tmp : string) (w' : World nat),
    save_uploaded_model Stub.env_ffmpeg [Byte.x01; Byte.x02] Stub.with_raw_avi = (OK tmp, w')
    ∧ files w' !! tmp = Some [Byte.x01; Byte.x02]
    ∧ files w' !! "/tmp/raw.avi" = Some (Stub.two_frames Byte.x02).
Proof.
  destruct (upload_stored_verbatim Stub.env_ffmpeg stub_tmpname_fresh []
              [Byte.x01; Byte.x02] Stub.with_raw_avi)
    as (_ & tmp & w' & Hrun & _ & Htmp & Hkept).
  exists tmp, w'. split; [exact Hrun|]. split; [exact Htmp|].
  apply Hkept. vm_compute; reflexivity.
Defined.

Lemma cleanup_removes_deletable_files_witness :
  ∃ w' : World nat,
    _cleanup_temp_files ["/tmp/raw.avi"; "/tmp/other"] Stub.with_raw_avi = (OK [], w')
    ∧ files w' !! "/tmp/raw.avi" = None.
Proof.
  destruct (cleanup_removes_deletable_files ["/tmp/raw.avi"; "/tmp/other"] Stub.with_raw_avi)
    as (w' & Hrun & Hgone & _).
  exists w'. split; [exact Hrun|]. apply Hgone.
  - left.
  - vm_compute. intros H. inversion H.
Defined.

(** ** The whole of [detect] *)

Section WholePipeline.
Context {Frame : Type} (E : Env Frame) (self : BaseDetector Frame).
Hypothesis fresh_names : tmpname_fresh E.

Lemma VideoCapture_result (video_path : string) (w : World Frame) :
  cv2_VideoCapture E video_path w =
  (OK tt,
   mkWorld (files w) (unlink_denied w)
     (mkCapture (bool_decide (is_Some (files w !! video_path ≫= demux E)))
        (decoded E w video_path))
     (out w) (ui w)).
Proof.
  unfold cv2_VideoCapture, decoded, bind, get. simpl.
  destruct (files w !! video_path ≫= demux E) as [video|]; reflexivity.
Qed.

Lemma decoded_readable (video_path : string) (w : World Frame) (c : VideoWriter Frame)
    (fs : gmap string (list Byte.byte)) (u : list ui_event) :
  readable
    (mkWorld fs (unlink_denied w)
       (mkCapture (bool_decide (is_Some (files w !! video_path ≫= demux E)))
          (decoded E w video_path)) c u)
  = video_frames (decoded E w video_path).
Proof.
  unfold readable, decoded. simpl.
  destruct (files w !! video_path ≫= demux E) as [video|]; reflexivity.
Qed.

(** Run the next statement, which returns by computation or by a lemma. *)
Ltac step :=
  erewrite bind_OK; [|cbn; reflexivity];
  cbn [files unlink_denied cap out ui fps width height total_frames cap_video cap_opened].
Ltac step_by lem :=
  erewrite bind_OK; [|by apply lem]; cbn [files unlink_denied cap out ui].

Lemma detect_world (video_path : string) (w : World Frame) :
  (∀ k : nat, (1 ≤ k ≤ length (video_frames (decoded E w video_path)))%nat →
              report_error (Z.of_nat k) (video_frame_count (decoded E w video_path)) = None) →
  intermediate_path E w ∉ unlink_denied w →
  detect E self video_path w =
  (OK (mkVideoDetectionResult (final_path E w)
         (foldl _merge_statistics ∅ (stats_of self <$> video_frames (decoded E w video_path)))),
   mkWorld
     (<[final_path E w := delivered E (raw_output self E (decoded E w video_path))]> (files w))
     (unlink_denied w)
     (mkCapture false no_video)
     (mkWriter (intermediate_path E w) (video_fps (decoded E w video_path))
        (video_width (decoded E w video_path), video_height (decoded E w video_path))
        (annotated_of self <$> video_frames (decoded E w video_path)))
     (ui w ++ process_calls (decoded E w video_path))).
Proof.
  intros Hcount Hallowed. unfold detect, final_path, intermediate_path, raw_output in *.
  set (temp := tmpname E (dom (files w)) ".avi") in *.
  set (video := decoded E w video_path) in *.
  step_by VideoCapture_result. fold video. step. step. fold temp. step.
  erewrite bind_OK; [|apply process_frames_ok; unfold video; by rewrite decoded_readable].
  unfold processed. unfold video at 2 3. rewrite !decoded_readable. fold video.
  unfold writer_after, capture_left.
  cbn [files unlink_denied cap out ui cap_opened cap_video out_path out_fps out_size
       out_frames video_frames].
  step. step.
  erewrite bind_OK; [|apply convert_to_h264_result; [done|apply lookup_insert_eq]].
  cbn [files unlink_denied cap out ui].
  rewrite insert_insert_eq, dom_insert_L.
  set (raw := mux E _ _ _). set (final := tmpname E _ ".mp4").
  assert (files w !! temp = None) as Htemp by apply not_elem_of_dom, fresh_names.
  assert (final ≠ temp) as Hne.
  { intros Heq. apply (fresh_names ({[temp]} ∪ dom (files w)) ".mp4").
    fold final. rewrite Heq. apply elem_of_union. left. by apply elem_of_singleton. }
  erewrite bind_OK;
    [|eapply path_exists_true; cbn [files]; by rewrite lookup_insert_ne, lookup_insert_eq].
  erewrite bind_OK;
    [|eapply unlink_deletes; [cbn [files]; by rewrite lookup_insert_ne, lookup_insert_eq|done]].
  cbn [files unlink_denied cap out ui]. unfold ret, process_calls.
  rewrite delete_insert_ne by done. rewrite delete_insert_eq, (delete_id _ _ Htemp).
  reflexivity.
Qed.

(** On a video whose declared frame count covers its frames (it is
    positive and not below their number, or there is no frame) and whose
    intermediate file can be deleted, [detect] returns the cumulative table
    of the frames and the path of a file that did not exist; afterwards
    the file system is the one before plus that file, which holds what the
    transcoding step delivers for the container of the annotated frames:
    the intermediate file is gone and no other file has changed. *)
Theorem detect_leaves_only_the_output (video_path : string) (w : World Frame) :
  video_frames (decoded E w video_path) = []
  ∨ (0 < video_frame_count (decoded E w video_path)
     ∧ Z.of_nat (length (video_frames (decoded E w video_path)))
       ≤ video_frame_count (decoded E w video_path)) →
  intermediate_path E w ∉ unlink_denied w →
  ∃ (result : VideoDetectionResult) (w' : World Frame),
    detect E self video_path w = (OK result, w')
    ∧ video_statistics result
      = foldl _merge_statistics ∅ (stats_of self <$> video_frames (decoded E w video_path))
    ∧ files w !! output_path result = None
    ∧ files w'
      = <[output_path result := delivered E (raw_output self E (decoded E w video_path))]>
          (files w)
    ∧ cap_opened (cap w') = false.
Proof.
  intros Hcount Hallowed. eexists _, _.
  split; [apply detect_world; [apply reports_in_range|done]|].
  { destruct Hcount as [->|?]; [by left|by right]. }
  cbn [video_statistics output_path files cap cap_opened].
  split; [done|]. split; [|done]. apply not_elem_of_dom. intros Hin.
  apply (fresh_names ({[intermediate_path E w]} ∪ dom (files w)) ".mp4").
  apply elem_of_union. by right.
Qed.

(** A file that is missing or does not decode is not an error for
    [detect], provided the intermediate file can be deleted: the capture
    is not opened, no frame is read and no progress shown, the table is
    empty and the output is made from a container of no frame. *)
Theorem detect_unreadable_video (video_path : string) (w : World Frame) :
  files w !! video_path ≫= demux E = None →
  intermediate_path E w ∉ unlink_denied w →
  ∃ (result : VideoDetectionResult) (w' : World Frame),
    detect E self video_path w = (OK result, w')
    ∧ video_statistics result = ∅
    ∧ files w' !! output_path result = Some (delivered E (mux E 0 (0, 0) []))
    ∧ progress_values (ui w') = progress_values (ui w).
Proof.
  intros Hnone Hallowed.
  assert (decoded E w video_path = no_video) as Hdec by (unfold decoded; by rewrite Hnone).
  eexists _, _.
  split; [apply detect_world; [rewrite Hdec; simpl; intros k Hk; lia|done]|].
  cbn [video_statistics output_path files ui]. rewrite Hdec. simpl.
  split; [done|]. split; [by rewrite lookup_insert_eq|].
  by rewrite progress_values_app, app_nil_r.
Qed.

Lemma detect_zero_total (video_path : string) (video : Video Frame)
    (frame : Frame) (rest : list Frame) (w : World Frame) :
  files w !! video_path ≫= demux E = Some video →
  video_frame_count video = 0 →
  video_frames video = frame :: rest →
  (detect E self video_path w).1 = Raise ZeroDivisionError
  ∧ files (detect E self video_path w).2 = <[intermediate_path E w := []]> (files w)
  ∧ cap_opened (cap (detect E self video_path w).2) = true.
Proof.
  intros Hvideo Hzero Hframes. unfold detect, intermediate_path.
  erewrite bind_OK; [|by apply (VideoCapture_opens E)]. cbn [files unlink_denied cap out ui].
  step. step. step.
  rewrite Hzero. erewrite bind_Raise; [|by apply (process_frames_zero self frame rest)].
  unfold capture_left. by cbn [fst snd files cap cap_opened].
Qed.

(** When the container declares 0 frames and holds one, [detect] raises
    [ZeroDivisionError] before it releases anything: the capture stays
    open and the empty intermediate file it created stays on disk. *)
Theorem detect_zero_total_leaves_intermediate (video_path : string) (video : Video Frame)
    (frame : Frame) (rest : list Frame) (w : World Frame) :
  files w !! video_path ≫= demux E = Some video →
  video_frame_count video = 0 →
  video_frames video = frame :: rest →
  (detect E self video_path w).1 = Raise ZeroDivisionError
  ∧ files (detect E self video_path w).2 = <[intermediate_path E w := []]> (files w)
  ∧ cap_opened (cap (detect E self video_path w).2) = true.
Proof. intros Hvideo Hzero Hframes. by apply (detect_zero_total video_path video frame rest). Qed.

End WholePipeline.

(** ** A whole video request *)

Section WholeRequest.
Context {Frame : Type} (E : Env Frame) (self : BaseDetector Frame).
Hypothesis fresh_names : tmpname_fresh E.

(** When every file the request creates can be deleted and, if the start
    button is pressed, the declared frame count of the upload covers its
    frames (it is positive and not below their number, or there is no
    frame), a video request leaves the file system as it found it: the
    upload, the intermediate file and the output shown to the user are all
    gone when [render] returns. With the button pressed the result shown
    carries the cumulative table of the frames of the upload. *)
Theorem request_leaves_no_temporary_file (uploaded : list Byte.byte) (clicked : bool)
    (w : World Frame) :
  (∀ path, files w !! path = None → path ∉ unlink_denied w) →
  (clicked = true →
   video_frames (default no_video (demux E uploaded)) = []
   ∨ (0 < video_frame_count (default no_video (demux E uploaded))
      ∧ Z.of_nat (length (video_frames (default no_video (demux E uploaded))))
        ≤ video_frame_count (default no_video (demux E uploaded)))) →
  ∃ (shown : option VideoDetectionResult) (w' : World Frame),
    render E self (Some uploaded) clicked w = (OK shown, w')
    ∧ files w' = files w
    ∧ (video_statistics <$> shown)
      = if clicked
        then Some (foldl _merge_statistics ∅
                     (stats_of self <$> video_frames (default no_video (demux E uploaded))))
        else None.
Proof.
  intros Hdeletable Hcount. unfold render.
  erewrite bind_OK by apply save_uploaded_video_result. cbn [app].
  set (up := tmpname E (dom (files w)) ".mp4").
  set (w1 := mkWorld (<[up := uploaded]> (files w)) (unlink_denied w) (cap w) (out w) (ui w)).
  assert (files w !! up = None) as Hup by apply not_elem_of_dom, fresh_names.
  unfold _process_and_display, _render_detection_ui. destruct clicked.
  - assert (decoded E w1 up = default no_video (demux E uploaded)) as Hdec.
    { unfold decoded, w1. cbn [files]. by rewrite lookup_insert_eq. }
    assert (files w !! intermediate_path E w1 = None) as Htemp.
    { apply not_elem_of_dom. intros Hin.
      apply (fresh_names (dom (files w1)) ".avi").
      change (intermediate_path E w1 ∈ dom (<[up := uploaded]> (files w))).
      by apply dom_insert_subseteq. }
    assert (files w !! final_path E w1 = None) as Hfinal.
    { apply not_elem_of_dom. intros Hin.
      apply (fresh_names ({[intermediate_path E w1]} ∪ dom (files w1)) ".mp4").
      change (final_path E w1
              ∈ {[intermediate_path E w1]} ∪ dom (<[up := uploaded]> (files w))).
      apply elem_of_union. right. by apply dom_insert_subseteq. }
    erewrite bind_OK.
    2:{ erewrite bind_OK; [reflexivity|].
        apply (detect_world E self fresh_names up w1).
        - rewrite Hdec. apply reports_in_range.
          destruct (Hcount eq_refl) as [->|?]; [by left|by right].
        - unfold w1 at 2. cbn [unlink_denied]. by apply Hdeletable. }
    cbn [output_path].
    match goal with |- context [bind (_cleanup_temp_files ?paths) _ ?w2] =>
      destruct (cleanup_temp_files_result paths w2) as (w' & Hrun & _ & _ & _ & _ & Hfiles)
    end.
    erewrite bind_OK by exact Hrun. eexists _, _. split; [reflexivity|].
    cbn [fmap option_fmap option_map video_statistics]. rewrite Hdec. split; [|done].
    apply map_eq. intros path. rewrite Hfiles. cbn [files unlink_denied]. unfold w1. cbn [files].
    case_bool_decide as Hcase.
    + destruct Hcase as [Hin _]. apply elem_of_cons in Hin as [->|Hin]; [done|].
      apply list_elem_of_singleton in Hin as ->. done.
    + destruct (decide (path = final_path E w1)) as [->|Hnf].
      { destruct Hcase. split; [right; left|]. by apply Hdeletable. }
      destruct (decide (path = up)) as [->|Hnu].
      { destruct Hcase. split; [left|]. by apply Hdeletable. }
      by rewrite !lookup_insert_ne.
  - erewrite bind_OK by reflexivity. cbv beta iota zeta.
    match goal with |- context [bind (_cleanup_temp_files ?paths) _ ?w2] =>
      destruct (cleanup_temp_files_result paths w2) as (w' & Hrun & _ & _ & _ & _ & Hfiles)
    end.
    erewrite bind_OK by exact Hrun. eexists _, _. split; [reflexivity|]. split; [|done].
    apply map_eq. intros path. rewrite Hfiles. unfold w1. cbn [files unlink_denied].
    case_bool_decide as Hcase.
    + destruct Hcase as [Hin _]. by apply list_elem_of_singleton in Hin as ->.
    + destruct (decide (path = up)) as [->|Hnu].
      { destruct Hcase. split; [left|]. by apply Hdeletable. }
      by rewrite lookup_insert_ne.
Qed.

End WholeRequest.

Lemma detect_leaves_only_the_output_witness :
  ∃ (result : VideoDetectionResult) (w' : World nat),
    detect Stub.env_ffmpeg Stub.detector "/tmp/in.mp4" stub_uploaded = (OK result, w')
    ∧ video_statistics result
      = foldl _merge_statistics ∅
          (stats_of Stub.detector
             <$> video_frames (decoded Stub.env_ffmpeg stub_uploaded "/tmp/in.mp4"))
    ∧ files stub_uploaded !! output_path result = None
    ∧ files w'
      = <[output_path result :=
            delivered Stub.env_ffmpeg
              (raw_output Stub.detector Stub.env_ffmpeg
                 (decoded Stub.env_ffmpeg stub_uploaded "/tmp/in.mp4"))]>
          (files stub_uploaded)
    ∧ cap_opened (cap w') = false.
Proof.
  apply (detect_leaves_only_the_output Stub.env_ffmpeg Stub.detector stub_tmpname_fresh).
  - right. vm_compute. split; [reflexivity|discriminate].
  - apply not_elem_of_empty.
Defined.

Lemma detect_unreadable_video_witness :
  ∃ (result : VideoDetectionResult) (w' : World nat),
    detect Stub.env_ffmpeg Stub.detector "/tmp/missing.mp4" stub_uploaded = (OK result, w')
    ∧ video_statistics result = ∅
    ∧ files w' !! output_path result
      = Some (delivered Stub.env_ffmpeg (mux Stub.env_ffmpeg 0 (0, 0) []))
    ∧ progress_values (ui w') = progress_values (ui stub_uploaded).
Proof.
  apply (detect_unreadable_video Stub.env_ffmpeg Stub.detector stub_tmpname_fresh).
  - vm_compute; reflexivity.
  - apply not_elem_of_empty.
Defined.

Lemma detect_zero_total_leaves_intermediate_witness :
  (detect Stub.env_ffmpeg Stub.detector "/tmp/zero.mp4" stub_uploaded).1
  = Raise ZeroDivisionError
  ∧ files (detect Stub.env_ffmpeg Stub.detector "/tmp/zero.mp4" stub_uploaded).2
    = <[intermediate_path Stub.env_ffmpeg stub_uploaded := []]> (files stub_uploaded)
  ∧ cap_opened (cap (detect Stub.env_ffmpeg Stub.detector "/tmp/zero.mp4" stub_uploaded).2)
    = true.
Proof.
  apply (detect_zero_total_leaves_intermediate Stub.env_ffmpeg Stub.detector "/tmp/zero.mp4"
           (mkVideo 25 4 4 0 [0; 1]%nat) 0%nat [1%nat]).
  - vm_compute; reflexivity.
  - reflexivity.
  - reflexivity.
Defined.

Lemma request_leaves_no_temporary_file_witness :
  ∃ (shown : option VideoDetectionResult) (w' : World nat),
    render Stub.env_ffmpeg Stub.detector (Some (Stub.two_frames Byte.x02)) true stub_uploaded
    = (OK shown, w')
    ∧ files w' = files stub_uploaded
    ∧ (video_statistics <$> shown)
      = Some (foldl _merge_statistics ∅
                (stats_of Stub.detector
                   <$> video_frames
                         (default no_video (demux Stub.env_ffmpeg (Stub.two_frames Byte.x02))))).
Proof.
  apply (request_leaves_no_temporary_file Stub.env_ffmpeg Stub.detector stub_tmpname_fresh
           (Stub.two_frames Byte.x02) true stub_uploaded).
  - intros path _. apply not_elem_of_empty.
  - intros _. right. vm_compute. split; [reflexivity|discriminate].
Defined.

(** ** The model cache over a whole run *)

Lemma load_model_model_files (model_path : string) (s : ModelService.State) :
  ModelService.model_files (ModelService.load_model model_path s).2 = ModelService.model_files s
  ∧ ModelService.cuda_is_available (ModelService.load_model model_path s).2
    = ModelService.cuda_is_available s.
Proof.
  destruct (ModelService.cache s !! model_path) as [cached|] eqn:Hc.
  - by rewrite (load_model_hit _ _ _ Hc).
  - rewrite (load_model_miss _ _ Hc). by destruct (bool_decide _).
Qed.

Lemma load_all_model_files (paths : list string) (s : ModelService.State) :
  ModelService.model_files (ModelService.load_all paths s) = ModelService.model_files s
  ∧ ModelService.cuda_is_available (ModelService.load_all paths s)
    = ModelService.cuda_is_available s.
Proof.
  revert s. induction paths as [|p rest IH]; intros s; [done|]. simpl.
  destruct (IH (ModelService.load_model p s).2) as [-> ->]. apply load_model_model_files.
Qed.

Lemma load_all_snoc (paths : list string) (model_path : string) (s : ModelService.State) :
  ModelService.load_all (paths ++ [model_path]) s
  = (ModelService.load_model model_path (ModelService.load_all paths s)).2.
Proof. unfold ModelService.load_all. by rewrite foldl_app. Qed.

Lemma deserializations_app (model_path : string) (log log' : list ModelService.event) :
  deserializations model_path (log ++ log')
  = (deserializations model_path log + deserializations model_path log')%nat.
Proof. unfold deserializations. by rewrite filter_app, length_app. Qed.

Lemma cache_invariant_load_model (model_path : string) (s : ModelService.State) :
  cache_invariant s → cache_invariant (ModelService.load_model model_path s).2.
Proof.
  intros (Hlog & Hcached & Hinj).
  destruct (ModelService.cache s !! model_path) as [cached|] eqn:Hc.
  { by rewrite (load_model_hit _ _ _ Hc). }
  rewrite (load_model_miss _ _ Hc).
  destruct (bool_decide (model_path ∈ ModelService.model_files s)) eqn:Hfile; [|done].
  apply bool_decide_eq_true in Hfile. cbn [snd]. split; [|split]; simpl.
  - intros p. rewrite deserializations_app, Hlog, lookup_insert.
    unfold deserializations. simpl. rewrite !filter_cons, filter_nil.
    destruct (decide (model_path = p)) as [->|Hne].
    + rewrite Hc. rewrite decide_True by done. by rewrite decide_False by done.
    + rewrite decide_False by congruence. rewrite decide_False by done.
      simpl. lia.
  - intros p m. rewrite lookup_insert. destruct (decide (model_path = p)) as [->|Hne].
    + intros [= <-]. simpl. split; [done|]. split; [lia|done].
    + intros Hp. destruct (Hcached p m Hp) as (? & ? & ?). split; [done|]. split; [lia|done].
  - intros p q m m'. rewrite !lookup_insert.
    destruct (decide (model_path = p)) as [<-|Hp]; destruct (decide (model_path = q)) as [<-|Hq];
      try done.
    + intros [= <-] Hq' Heq. simpl in Heq. destruct (Hcached q m' Hq') as (_ & Hlt & _). lia.
    + intros Hp' [= <-] Heq. simpl in Heq. destruct (Hcached p m Hp') as (_ & Hlt & _). lia.
    + apply Hinj.
Qed.

Lemma cache_invariant_load_all (paths : list string) (s : ModelService.State) :
  cache_invariant s → cache_invariant (ModelService.load_all paths s).
Proof.
  revert s. induction paths as [|p rest IH]; intros s Hinv; [done|].
  simpl. by apply IH, cache_invariant_load_model.
Qed.

Lemma load_all_cached (paths : list string) (model_path : string) (s : ModelService.State) :
  is_Some (ModelService.cache (ModelService.load_all paths s) !! model_path) ↔
  is_Some (ModelService.cache s !! model_path)
  ∨ (model_path ∈ paths ∧ model_path ∈ ModelService.model_files s).
Proof.
  revert s. induction paths as [|p rest IH]; intros s.
  - simpl. split; [by left|]. intros [?|[Hin _]]; [done|inversion Hin].
  - simpl. rewrite IH. destruct (load_model_model_files p s) as [-> _].
    rewrite elem_of_cons.
    destruct (ModelService.cache s !! p) as [cached|] eqn:Hc.
    + rewrite (load_model_hit _ _ _ Hc). simpl. split; [tauto|].
      intros [?|[[->|?] ?]]; [tauto| |tauto]. left. by rewrite Hc.
    + rewrite (load_model_miss _ _ Hc).
      destruct (bool_decide (p ∈ ModelService.model_files s)) eqn:Hfile; simpl.
      * apply bool_decide_eq_true in Hfile. rewrite lookup_insert.
        destruct (decide (p = model_path)) as [->|Hne].
        -- split; [intros _; right; tauto|intros _; left; by eexists].
        -- split; [tauto|]. intros [?|[[->|?] ?]]; tauto.
      * apply bool_decide_eq_false in Hfile.
        split; [tauto|]. intros [?|[[->|?] ?]]; tauto.
Qed.

Lemma new_process_invariant (cuda : bool) (on_disk : gset string) (broken : gmap string exn) :
  cache_invariant (new_process cuda on_disk broken).
Proof.
  split; [|split]; simpl.
  - intros p. by rewrite lookup_empty.
  - intros p m. by rewrite lookup_empty.
  - intros p q m m'. by rewrite lookup_empty.
Qed.

(** Over any sequence of [load_model] calls in a process that starts with
    an empty cache, a path is deserialized exactly once if it was ever
    requested and holds a loadable model, and never otherwise; and it is in
    the cache in exactly that case. *)
Theorem model_deserialized_at_most_once (cuda : bool) (on_disk : gset string)
    (broken : gmap string exn) (paths : list string) (model_path : string) :
  deserializations model_path
    (ModelService.events (ModelService.load_all paths (new_process cuda on_disk broken)))
  = (if bool_decide (model_path ∈ paths ∧ model_path ∈ on_disk) then 1 else 0)%nat
  ∧ (is_Some (ModelService.cache (ModelService.load_all paths (new_process cuda on_disk broken))
                !! model_path)
     ↔ model_path ∈ paths ∧ model_path ∈ on_disk).
Proof.
  pose proof (cache_invariant_load_all paths _ (new_process_invariant cuda on_disk broken))
    as (Hlog & _ & _).
  pose proof (load_all_cached paths model_path (new_process cuda on_disk broken)) as Hcached.
  simpl in Hcached. rewrite lookup_empty in Hcached.
  assert (is_Some (ModelService.cache (ModelService.load_all paths (new_process cuda on_disk broken))
                     !! model_path)
          ↔ model_path ∈ paths ∧ model_path ∈ on_disk) as Hiff.
  { rewrite Hcached. split; [|tauto]. intros [[x [=]]|?]; done. }
  split; [|done]. rewrite Hlog. case_bool_decide as Hcase.
  - apply Hiff in Hcase as [m ->]. done.
  - destruct (ModelService.cache _ !! model_path) eqn:Hc; [|done].
    destruct Hcase. apply Hiff. by eexists.
Qed.

(** In every state a fresh process can reach, a cached model was loaded
    from the path it is cached under and is bound to the device
    [get_device] reports, and the models cached under two different paths
    are two different objects. *)
Theorem cached_models_distinct (cuda : bool) (on_disk : gset string)
    (broken : gmap string exn) (paths : list string) :
  (∀ model_path model,
     ModelService.cache (ModelService.load_all paths (new_process cuda on_disk broken)) !! model_path
     = Some model →
     ModelService.source_path model = model_path
     ∧ ModelService.device model = (if cuda then "cuda" else "cpu"))
  ∧ (∀ p q m m',
       ModelService.cache (ModelService.load_all paths (new_process cuda on_disk broken)) !! p
       = Some m →
       ModelService.cache (ModelService.load_all paths (new_process cuda on_disk broken)) !! q
       = Some m' →
       p ≠ q → ModelService.handle m ≠ ModelService.handle m').
Proof.
  pose proof (cache_invariant_load_all paths _ (new_process_invariant cuda on_disk broken))
    as (_ & Hcached & Hinj).
  destruct (load_all_model_files paths (new_process cuda on_disk broken)) as [_ Hcuda].
  simpl in Hcuda. split.
  - intros model_path model Hm. destruct (Hcached _ _ Hm) as (Hpath & _ & Hdev).
    by rewrite Hcuda in Hdev.
  - intros p q m m' Hp Hq Hne Heq. by apply Hne, (Hinj p q m m').
Qed.

Lemma cached_models_distinct_witness :
  ModelService.source_path (ModelService.mkModel 1 "b.pt" "cpu") = "b.pt"
  ∧ ModelService.device (ModelService.mkModel 1 "b.pt" "cpu") = "cpu".
Proof.
  apply (proj1 (cached_models_distinct false {["a.pt"; "b.pt"]} ∅ ["a.pt"; "b.pt"; "a.pt"])
           "b.pt").
  vm_compute; reflexivity.
Defined.

(** A call of [load_model] returns a model exactly when the path is cached
    or holds a loadable model; otherwise it raises what [YOLO] raises on
    the path, [FileNotFoundError] when there is no such file and the
    exception of the file when it is not a loadable model, and changes
    nothing, so the failure is not cached and the next call tries again. *)
Theorem failed_load_changes_nothing (model_path : string) (s : ModelService.State) :
  ((∃ model s', ModelService.load_model model_path s = (OK model, s'))
   ↔ is_Some (ModelService.cache s !! model_path)
     ∨ model_path ∈ ModelService.model_files s)
  ∧ (ModelService.cache s !! model_path = None →
     model_path ∉ ModelService.model_files s →
     (∀ e, ModelService.broken_files s !! model_path = Some e →
           ModelService.load_model model_path s = (Raise e, s))
     ∧ (ModelService.broken_files s !! model_path = None →
        ModelService.load_model model_path s = (Raise FileNotFoundError, s))
     ∧ ModelService.load_model model_path (ModelService.load_model model_path s).2
       = ModelService.load_model model_path s).
Proof.
  destruct (ModelService.cache s !! model_path) as [cached|] eqn:Hc.
  - rewrite (load_model_hit _ _ _ Hc). split; [|done]. split; [by left|by eexists _, _].
  - rewrite (load_model_miss _ _ Hc). case_bool_decide as Hfile.
    + split; [|done]. split; [by right|by eexists _, _].
    + split.
      * split; [by intros (m & s' & [=])|]. intros [[x [=]]|?]; done.
      * intros _ _. split; [by intros e ->|]. split; [by intros ->|].
        cbn [snd]. rewrite (load_model_miss _ _ Hc). by rewrite bool_decide_eq_false_2.
Qed.

Lemma failed_load_changes_nothing_witness :
  ModelService.load_model "models/notes.pt" Stub.fresh_process
  = (Raise TypeError, Stub.fresh_process).
Proof.
  destruct (proj2 (failed_load_changes_nothing "models/notes.pt" Stub.fresh_process))
    as (Hbroken & _ & _).
  - reflexivity.
  - vm_compute. discriminate.
  - apply Hbroken. reflexivity.
Defined.

(** ** The class selection of the sidebar *)

Lemma DETECTION_CLASSES_items_agree :
  list_to_map DETECTION_CLASSES_items = Config.DETECTION_CLASSES.
Proof.
  unfold DETECTION_CLASSES_items, Config.DETECTION_CLASSES. simpl.
  by rewrite insert_insert_ne.
Qed.

Lemma render_class_selection_unfold (checkbox : string → bool) :
  SidebarComponent._render_class_selection checkbox =
  (if checkbox "class_0" then [0] else []) ++ (if checkbox "class_1" then [1] else []).
Proof.
  unfold SidebarComponent._render_class_selection. simpl.
  change (SidebarComponent.checkbox_key 0) with "class_0".
  change (SidebarComponent.checkbox_key 1) with "class_1".
  by destruct (checkbox "class_0"), (checkbox "class_1").
Qed.

(** The sidebar selects exactly the registered classes whose checkbox is
    ticked, each once and in registry order; with every box ticked that is
    [get_all_class_ids]. With no box ticked the selection is empty, and a
    detector built from it calls [predict] with no class restriction: to
    untick every class does not exclude everything, it lifts the
    restriction. *)
Theorem class_selection_of_sidebar :
  (∀ (checkbox : string → bool) (class_id : Z),
     class_id ∈ SidebarComponent._render_class_selection checkbox ↔
     is_Some (Config.DETECTION_CLASSES !! class_id)
     ∧ checkbox (SidebarComponent.checkbox_key class_id) = true)
  ∧ (∀ checkbox : string → bool,
       NoDup (SidebarComponent._render_class_selection checkbox)
       ∧ sublist (SidebarComponent._render_class_selection checkbox) get_all_class_ids)
  ∧ SidebarComponent._render_class_selection (λ _, true) = get_all_class_ids
  ∧ (∀ (Frame : Type) (model : YOLO Frame) (conf_min : Q) (frame : Frame)
       (checkbox : string → bool),
       (∀ class_id, is_Some (Config.DETECTION_CLASSES !! class_id) →
                    checkbox (SidebarComponent.checkbox_key class_id) = false) →
       _run_inference
         (create_video_detector model conf_min
            (Some (SidebarComponent._render_class_selection checkbox))) frame
       = (plot (predict model frame conf_min None),
          _extract_statistics (boxes (predict model frame conf_min None)))).
Proof.
  split; [|split; [|split]].
  - intros checkbox class_id. rewrite render_class_selection_unfold, get_class_name_registered.
    rewrite elem_of_app. split.
    + intros [Hin|Hin].
      * destruct (checkbox "class_0") eqn:H0; [|inversion Hin].
        apply list_elem_of_singleton in Hin as ->. auto.
      * destruct (checkbox "class_1") eqn:H1; [|inversion Hin].
        apply list_elem_of_singleton in Hin as ->. auto.
    + intros [[-> | ->] Hticked].
      * change (SidebarComponent.checkbox_key 0) with "class_0" in Hticked.
        rewrite Hticked. left. by apply list_elem_of_singleton.
      * change (SidebarComponent.checkbox_key 1) with "class_1" in Hticked.
        rewrite Hticked. right. by apply list_elem_of_singleton.
  - intros checkbox. rewrite render_class_selection_unfold.
    unfold get_all_class_ids, DETECTION_CLASSES_items. simpl.
    destruct (checkbox "class_0"), (checkbox "class_1"); simpl; split;
      repeat (first [apply NoDup_nil_2 | apply NoDup_cons_2 | apply sublist_skip
                    | apply sublist_cons | apply sublist_nil | done
                    | rewrite list_elem_of_singleton | apply not_elem_of_nil]).
  - by rewrite render_class_selection_unfold.
  - intros Frame model conf_min frame checkbox Hnone.
    rewrite render_class_selection_unfold.
    assert (checkbox "class_0" = false) as ->
      by (apply (Hnone 0), get_class_name_registered; auto).
    assert (checkbox "class_1" = false) as ->
      by (apply (Hnone 1), get_class_name_registered; auto).
    reflexivity.
Qed.

Lemma class_selection_of_sidebar_witness :
  _run_inference
    (create_video_detector (Stub.model Stub.street) (1 # 2)
       (Some (SidebarComponent._render_class_selection (λ _, false)))) 3%nat
  = (plot (predict (Stub.model Stub.street) 3%nat (1 # 2) None),
     _extract_statistics (boxes (predict (Stub.model Stub.street) 3%nat (1 # 2) None))).
Proof.
  apply (proj2 (proj2 (proj2 class_selection_of_sidebar))). intros class_id _. reflexivity.
Defined.

(** ** Statistics panels *)

Lemma place_metrics_in_range (column_of : nat → nat) (n : nat) (items : list (string * Z)) :
  ∀ i : nat,
    (∀ j, (i ≤ j < i + length items)%nat → (column_of j < n)%nat) →
    place_metrics column_of (seq 0 n) i items
    = Some (zip (column_of <$> seq i (length items)) items).
Proof.
  induction items as [|item rest IH]; intros i Hrange; [done|].
  simpl in *. rewrite (lookup_seq_lt 0 n (column_of i)) by (apply Hrange; lia). simpl.
  rewrite IH; [done|]. intros j Hj. apply Hrange. lia.
Qed.

Lemma placed_lookup (column_of : nat → nat) (items : list (string * Z)) (i col : nat)
    (entry : string * Z) :
  zip (column_of <$> seq 0 (length items)) items !! i = Some (col, entry) →
  col = column_of i ∧ items !! i = Some entry.
Proof.
  rewrite lookup_zip_with_Some. intros (x & y & [= <- <-] & Hx & Hy).
  rewrite list_lookup_fmap in Hx. destruct (seq 0 (length items) !! i) as [k|] eqn:Hk; [|done].
  apply lookup_seq in Hk as [-> _]. simpl in Hx. by injection Hx as <-.
Qed.

(** The statistics panels never index outside their columns and never
    ask for zero columns: for every table the panel shows each entry of
    the table once, entry number i in column i mod 5 of at most five
    columns for a video, in column i of as many columns as entries for an
    image. *)
Theorem statistics_panel_in_range (statistics : gmap string Z) :
  (∃ placed,
     VideoProcessorComponent._display_statistics statistics = Some placed
     ∧ placed.*2 = map_to_list statistics
     ∧ ∀ i col entry, placed !! i = Some (col, entry) →
         col = (i `mod` 5)%nat ∧ (col < size statistics `min` 5)%nat)
  ∧ (∃ placed,
       ImageProcessorComponent._display_statistics statistics = Some placed
       ∧ placed.*2 = map_to_list statistics
       ∧ ∀ i col entry, placed !! i = Some (col, entry) →
           col = i ∧ (col < size statistics)%nat).
Proof.
  unfold VideoProcessorComponent._display_statistics,
    ImageProcessorComponent._display_statistics.
  destruct (decide (statistics = ∅)) as [->|Hne].
  { rewrite map_to_list_empty. split; exists []; repeat split; done. }
  assert (size statistics ≠ 0%nat) as Hsize by (by intros ?%map_size_empty_inv).
  assert (length (map_to_list statistics) = size statistics) as Hlen
    by apply length_map_to_list.
  split.
  - destruct (size statistics `min` 5)%nat as [|n] eqn:Hn; [lia|]. cbn [st_columns mbind option_bind].
    rewrite place_metrics_in_range.
    2:{ intros j Hj. pose proof (Nat.mod_upper_bound j 5).
        destruct (decide (j < 5)%nat); [rewrite Nat.mod_small by done|]; lia. }
    eexists. split; [done|]. split.
    + rewrite snd_zip; [done|]. rewrite length_fmap, length_seq. lia.
    + intros i col entry [-> Hentry]%placed_lookup.
      apply lookup_lt_Some in Hentry. split; [done|].
      pose proof (Nat.mod_upper_bound i 5).
      destruct (decide (i < 5)%nat); [rewrite Nat.mod_small by done|]; lia.
  - destruct (size statistics) as [|n] eqn:Hn; [done|]. cbn [st_columns mbind option_bind].
    rewrite place_metrics_in_range by (intros j Hj; lia).
    eexists. split; [done|]. split.
    + rewrite snd_zip; [done|]. rewrite length_fmap, length_seq. lia.
    + intros i col entry [-> Hentry]%placed_lookup.
      apply lookup_lt_Some in Hentry. split; [done|]. lia.
Qed.

(** ** Every way [detect] can end *)




Section DetectOutcomes.
Context {Frame : Type} (E : Env Frame) (self : BaseDetector Frame).
Hypothesis fresh_names : tmpname_fresh E.

Ltac step :=
  erewrite bind_OK; [|cbn; reflexivity];
  cbn [files unlink_denied cap out ui fps width height total_frames cap_video cap_opened].

Lemma detect_denied (video_path : string) (w : World Frame) :
  (∀ k : nat, (1 ≤ k ≤ length (video_frames (decoded E w video_path)))%nat →
              report_error (Z.of_nat k) (video_frame_count (decoded E w video_path)) = None) →
  intermediate_path E w ∈ unlink_denied w →
  (detect E self video_path w).1 = Raise PermissionError.
Proof.
  intros Hcount Hdenied. unfold detect, intermediate_path in *.
  set (temp := tmpname E (dom (files w)) ".avi") in *.
  set (video := decoded E w video_path) in *.
  erewrite bind_OK; [|by apply (VideoCapture_result E)]. cbn [files unlink_denied cap out ui].
  fold video. step. step. fold temp. step.
  erewrite bind_OK; [|apply process_frames_ok; unfold video; by rewrite (decoded_readable E)].
  unfold processed. unfold video at 2 3. rewrite !(decoded_readable E). fold video.
  unfold writer_after, capture_left.
  cbn [files unlink_denied cap out ui cap_opened cap_video out_path out_fps out_size
       out_frames video_frames].
  step. step.
  erewrite bind_OK; [|apply convert_to_h264_result; [done|apply lookup_insert_eq]].
  cbn [files unlink_denied cap out ui].
  rewrite insert_insert_eq, dom_insert_L.
  set (raw := mux E _ _ _). set (final := tmpname E _ ".mp4").
  assert (final ≠ temp) as Hne.
  { intros Heq. apply (fresh_names ({[temp]} ∪ dom (files w)) ".mp4").
    fold final. rewrite Heq. apply elem_of_union. left. by apply elem_of_singleton. }
  erewrite bind_OK;
    [|eapply path_exists_true; cbn [files]; by rewrite lookup_insert_ne, lookup_insert_eq].
  erewrite bind_Raise; [done|].
  eapply unlink_denied_raises; [|done].
  cbn [files]. by rewrite lookup_insert_ne, lookup_insert_eq.
Qed.

(** When a progress report raises, [detect] is aborted there. *)
Lemma detect_aborted (video_path : string) (m : nat) (e : exn) (w : World Frame) :
  (m < length (video_frames (decoded E w video_path)))%nat →
  (∀ k : nat, (1 ≤ k ≤ m)%nat →
              report_error (Z.of_nat k) (video_frame_count (decoded E w video_path)) = None) →
  report_error (Z.of_nat (S m)) (video_frame_count (decoded E w video_path)) = Some e →
  (detect E self video_path w).1 = Raise e.
Proof.
  intros Hm Hgo Hat. unfold detect.
  set (video := decoded E w video_path) in *.
  erewrite bind_OK; [|by apply (VideoCapture_result E)]. cbn [files unlink_denied cap out ui].
  fold video. step. step. step.
  erewrite bind_Raise; [done|].
  apply process_frames_raises; [|done|done].
  unfold video. by rewrite (decoded_readable E).
Qed.

Lemma decoded_frames_opened (video_path : string) (w : World Frame) :
  video_frames (decoded E w video_path) ≠ [] →
  files w !! video_path ≫= demux E = Some (decoded E w video_path).
Proof.
  unfold decoded. by destruct (files w !! video_path ≫= demux E).
Qed.

Lemma detect_result_cases (video_path : string) (w : World Frame) :
  (detect E self video_path w).1 =
  if bool_decide (video_frame_count (decoded E w video_path) = 0
                  ∧ video_frames (decoded E w video_path) ≠ [])
  then Raise ZeroDivisionError
  else if bool_decide (Exists (λ v, _check_float_between v 0 1 = false)
                         (progress_seq (video_frame_count (decoded E w video_path))
                            (length (video_frames (decoded E w video_path)))))
  then Raise StreamlitValueOutOfRangeError
  else if bool_decide (intermediate_path E w ∈ unlink_denied w)
  then Raise PermissionError
  else OK (mkVideoDetectionResult (final_path E w)
             (foldl _merge_statistics ∅
                (stats_of self <$> video_frames (decoded E w video_path)))).
Proof.
  set (video := decoded E w video_path).
  case_bool_decide as Hzero.
  - destruct Hzero as [Hzero Hframes].
    destruct (video_frames video) as [|frame rest] eqn:Hfr; [done|].
    apply (detect_zero_total E self video_path video frame rest w);
      [apply decoded_frames_opened; fold video; by rewrite Hfr|done..].
  - assert (video_frames video = [] ∨ video_frame_count video ≠ 0) as Hcases.
    { destruct (video_frames video); [by left|]. right. intros Heq. by apply Hzero. }
    destruct (first_report_error (video_frame_count video) 0 (length (video_frames video)))
      as [Hgo|(m & e & Hm & Hbefore & Hat)].
    + rewrite bool_decide_eq_false_2.
      2:{ destruct Hcases as [->|Htot]; [by intros ?%Exists_nil|].
          intros Hrefused%Exists_refused. apply Hrefused. by apply reports_accepted. }
      case_bool_decide as Hdenied.
      * by apply detect_denied.
      * by rewrite (detect_world E self fresh_names video_path w Hgo Hdenied).
    + rewrite Z.add_0_l in Hat.
      assert (video_frame_count video ≠ 0) as Htot.
      { destruct Hcases as [Hnil|?]; [|done]. rewrite Hnil in Hm. simpl in Hm. lia. }
      rewrite bool_decide_eq_true_2.
      2:{ apply Exists_refused. intros Hall.
          pose proof (proj2 (reports_accepted _ _ Htot) Hall (S m) ltac:(lia)) as Hgo.
          by rewrite Hgo in Hat. }
      rewrite (detect_aborted video_path m e w Hm Hbefore Hat).
      apply report_error_kinds in Hat as [[_ ?]|[-> _]]; done.
Qed.


End DetectOutcomes.


(** ** Every way a video request can end *)

Section RequestOutcomes.
Context {Frame : Type} (E : Env Frame).
Hypothesis fresh_names : tmpname_fresh E.

Lemma render_outcomes (self : BaseDetector Frame) (uploaded : list Byte.byte) (clicked : bool)
    (w : World Frame) :
  (render E self (Some uploaded) clicked w).1 =
  if clicked then
    if bool_decide (video_frame_count (default no_video (demux E uploaded)) = 0
                    ∧ video_frames (default no_video (demux E uploaded)) ≠ [])
    then Raise ZeroDivisionError
    else if bool_decide
              (Exists (λ v, _check_float_between v 0 1 = false)
                 (progress_seq (video_frame_count (default no_video (demux E uploaded)))
                    (length (video_frames (default no_video (demux E uploaded))))))
    then Raise StreamlitValueOutOfRangeError
    else if bool_decide (intermediate_path E (saved E w uploaded) ∈ unlink_denied w)
    then Raise PermissionError
    else OK (Some (mkVideoDetectionResult (final_path E (saved E w uploaded))
                     (foldl _merge_statistics ∅
                        (stats_of self
                           <$> video_frames (default no_video (demux E uploaded))))))
  else OK None.
Proof.
  unfold render. erewrite bind_OK by apply save_uploaded_video_result. cbn [app].
  fold (saved E w uploaded). set (up := tmpname E (dom (files w)) ".mp4").
  unfold _process_and_display, _render_detection_ui. destruct clicked.
  - assert (decoded E (saved E w uploaded) up = default no_video (demux E uploaded)) as Hdec.
    { unfold decoded, saved. cbn [files]. by rewrite lookup_insert_eq. }
    pose proof (detect_result_cases E self fresh_names up (saved E w uploaded)) as Hdetect.
    rewrite Hdec in Hdetect. change (unlink_denied (saved E w uploaded)) with (unlink_denied w)
      in Hdetect.
    destruct (detect E self up (saved E w uploaded)) as [r w2] eqn:Hrun. cbn [fst] in Hdetect.
    unfold bind at 1 2. rewrite Hrun. subst r.
    case_bool_decide; [done|]. case_bool_decide; [done|]. case_bool_decide; [done|].
    cbn [output_path].
    unfold ret at 1. cbv beta iota zeta.
    match goal with |- context [bind (_cleanup_temp_files ?paths) _ ?w2] =>
      destruct (cleanup_temp_files_ok paths w2) as [w3 Hclean]
    end.
    by erewrite bind_OK by exact Hclean.
  - erewrite bind_OK by reflexivity. cbv beta iota zeta.
    match goal with |- context [bind (_cleanup_temp_files ?paths) _ ?w2] =>
      destruct (cleanup_temp_files_ok paths w2) as [w3 Hclean]
    end.
    by erewrite bind_OK by exact Hclean.
Qed.


(** ** The application *)

Variable engine : ModelService.Model → YOLO Frame.
Variable image_render : BaseDetector Frame → M (World Frame) unit.

Lemma render_never_out_of_fuel (self : BaseDetector Frame)
    (uploaded_file : option (list Byte.byte)) (clicked : bool) (w : World Frame) :
  (render E self uploaded_file clicked w).1 ≠ OutOfFuel.
Proof.
  destruct uploaded_file as [uploaded|]; [|done]. rewrite render_outcomes.
  destruct clicked; [|done]. by repeat case_bool_decide.
Qed.

Lemma load_model_outcome (model_path : string) (s : ModelService.State) :
  (∃ model, (ModelService.load_model model_path s).1 = OK model)
  ∨ ((∃ e, (ModelService.load_model model_path s).1 = Raise e)
     ∧ (ModelService.load_model model_path s).2 = s).
Proof.
  destruct (ModelService.cache s !! model_path) as [cached|] eqn:Hc.
  - rewrite (load_model_hit _ _ _ Hc). left. by eexists.
  - rewrite (load_model_miss _ _ Hc).
    case_bool_decide; [left; by eexists|right; split; [by eexists|done]].
Qed.

(** A run of the application on a video never raises: with no model path
    (or an empty one) it warns and stops; when the model cannot be loaded
    it shows the error and the pipeline is not touched; and when the model
    is loaded, whatever exception the video request raises is caught too
    and shown under the same model-loading message, the request's result
    being lost. *)
Theorem application_catches_every_exception (settings : SidebarComponent.SidebarSettings)
    (uploaded_file : option (list Byte.byte)) (clicked : bool) (s : AppState Frame) :
  (∃ shown : page,
     (run E engine image_render settings VideoFile uploaded_file clicked s).1 = OK shown)
  ∧ (SidebarComponent.model_path settings = None
     ∨ SidebarComponent.model_path settings = Some "" →
     run E engine image_render settings VideoFile uploaded_file clicked s
     = (OK SelectModelWarning, s))
  ∧ (∀ model_path e,
       SidebarComponent.model_path settings = Some model_path → model_path ≠ "" →
       (ModelService.load_model model_path (models s)).1 = Raise e →
       (run E engine image_render settings VideoFile uploaded_file clicked s).1
       = OK (ErrorLoadingModel e)
       ∧ world (run E engine image_render settings VideoFile uploaded_file clicked s).2
         = world s)
  ∧ (∀ model_path model e,
       SidebarComponent.model_path settings = Some model_path → model_path ≠ "" →
       (ModelService.load_model model_path (models s)).1 = OK model →
       (render E
          (create_video_detector (engine model) (SidebarComponent.confidence settings)
             (Some (SidebarComponent.selected_classes settings)))
          uploaded_file clicked (world s)).1 = Raise e →
       (run E engine image_render settings VideoFile uploaded_file clicked s).1
       = OK (ErrorLoadingModel e)).
Proof.
  unfold run. destruct (SidebarComponent.model_path settings) as [model_path|] eqn:Hpath.
  2:{ split; [by eexists|]. split; [done|]. split; intros; done. }
  destruct (decide (model_path = "")) as [->|Hne].
  { split; [by eexists|]. split; [done|].
    split; [intros ? ? [= <-] ?; done|intros ? ? ? [= <-] ?; done]. }
  assert (∀ p : M (AppState Frame) page,
            match model_path with "" => ret SelectModelWarning | _ => p end = p) as Hnonempty.
  { intros p. by destruct model_path. }
  rewrite Hnonempty. clear Hnonempty.
  unfold _process_with_model, try_except_as, _render_content, in_models, in_world, bind, ret.
  rewrite Hpath. simpl.
  destruct (ModelService.load_model model_path (models s)) as [[model|e|] m] eqn:Hload;
    cbn [fst snd models world].
  - pose proof (render_never_out_of_fuel
                  (create_video_detector (engine model) (SidebarComponent.confidence settings)
                     (Some (SidebarComponent.selected_classes settings)))
                  uploaded_file clicked (world s)) as Hfuel.
    destruct (render E _ uploaded_file clicked (world s)) as [[shown|e|] w'] eqn:Hrender;
      cbn [fst snd] in *; [| |done].
    + split; [by eexists|]. split; [by intros [[=]|[= ->]]|]. split.
      * intros p e' [= <-] _. rewrite Hload. by intros [=].
      * intros p model' e' [= <-] _. rewrite Hload. intros [= <-]. rewrite Hrender.
        by intros [=].
    + split; [by eexists|]. split; [by intros [[=]|[= ->]]|]. split.
      * intros p e' [= <-] _. rewrite Hload. by intros [=].
      * intros p model' e' [= <-] _. rewrite Hload. intros [= <-]. rewrite Hrender.
        by intros [= <-].
  - destruct (load_model_outcome model_path (models s)) as [[model Hm]|[_ Hstate]];
      rewrite Hload in *; [done|]. cbn [snd] in Hstate. subst m.
    split; [by eexists|]. split; [by intros [[=]|[= ->]]|]. split.
    + intros p e' [= <-] _. rewrite Hload. by intros [= <-].
    + intros p model' e' [= <-] _. rewrite Hload. by intros [=].
  - destruct (load_model_outcome model_path (models s)) as [[model Hm]|[[e Hm] _]];
      rewrite Hload in Hm; done.
Qed.

End RequestOutcomes.


Lemma application_catches_every_exception_witness :
  (run Stub.env_ffmpeg stub_engine (λ _, ret tt) stub_settings VideoFile
     (Some (Stub.two_frames Byte.x00)) true stub_app).1
  = OK (ErrorLoadingModel ZeroDivisionError).
Proof.
  apply (application_catches_every_exception Stub.env_ffmpeg stub_tmpname_fresh stub_engine
           (λ _, ret tt) stub_settings (Some (Stub.two_frames Byte.x00)) true stub_app)
    with (model_path := "models/best.pt")
         (model := ModelService.mkModel 0 "models/best.pt" "cpu").
  - reflexivity.
  - discriminate.
  - vm_compute; reflexivity.
  - vm_compute; reflexivity.
Defined.

(** ** The image detector *)

(** [ImageDetector.detect] returns the rendering and the table of one
    [predict] call and adds no class of its own: when every box the engine
    returns for the selected classes belongs to one of them, every name in
    the table is the name of a selected class. *)
Theorem image_statistics_within_selection {Frame : Type} (model : YOLO Frame) (conf_min : Q)
    (class_id : Z) (others : list Z) (image : Frame) :
  (∀ box,
     box ∈ default [] (boxes (predict model image conf_min (Some (class_id :: others)))) →
     cls box ∈ class_id :: others) →
  annotated_frame
    (ImageDetector_detect (create_image_detector model conf_min (Some (class_id :: others)))
       image)
  = plot (predict model image conf_min (Some (class_id :: others)))
  ∧ ∀ class_name,
      is_Some (statistics
                 (ImageDetector_detect
                    (create_image_detector model conf_min (Some (class_id :: others))) image)
               !! class_name) →
      ∃ selected, selected ∈ class_id :: others
                  ∧ class_name = Config.get_class_name selected.
Proof.
  intros Hcontract. unfold ImageDetector_detect, create_image_detector, _run_inference.
  cbn [annotated_frame statistics _model _confidence _classes classes_argument].
  split; [done|]. intros class_name [box [Hin <-]]%extract_statistics_present.
  exists (cls box). split; [by apply Hcontract|done].
Qed.

Lemma image_statistics_within_selection_witness :
  annotated_frame
    (ImageDetector_detect (create_image_detector (Stub.model Stub.street) (1 # 2) (Some [1]))
       3%nat)
  = plot (predict (Stub.model Stub.street) 3%nat (1 # 2) (Some [1])).
Proof.
  apply (image_statistics_within_selection (Stub.model Stub.street) (1 # 2) 1 [] 3%nat).
  intros box. vm_compute. intros Hin. apply list_elem_of_singleton in Hin as ->. left.
Defined.

Lemma statistics_panel_in_range_witness :
  ∃ placed,
    VideoProcessorComponent._display_statistics
      (_extract_statistics (Some [mkBox 0 (1 # 2); mkBox 1 (1 # 2); mkBox 7 (1 # 2)]))
    = Some placed
    ∧ placed.*1 = [0; 1; 2]%nat.
Proof.
  destruct (proj1 (statistics_panel_in_range
                     (_extract_statistics
                        (Some [mkBox 0 (1 # 2); mkBox 1 (1 # 2); mkBox 7 (1 # 2)]))))
    as (placed & Hplaced & _ & _).
  exists placed. split; [exact Hplaced|].
  vm_compute in Hplaced. injection Hplaced as <-. reflexivity.
Defined.
